(** * Beta monitor and system corrector of [Cali_Housing_Model.py]

    A shallow embedding of the classes [BetaMonitor] and
    [QDTSystemCorrector].  Python floats are IEEE binary64 values and are
    modelled by Rocq's primitive [float]; facts that hold for every float are
    obtained through the specification [Prim2SF] of the primitive operations
    over [spec_float].  Objects are records threaded explicitly through the
    methods; a callback is a function over an abstract world [W] that either
    returns or raises.  The world is everything outside the monitor a callback
    can touch: callbacks receive the status and the value and do not reach
    back into the monitor that calls them, as is the case of the callback the
    corrector registers.

    [calculate_effective_beta] and the body of the monitoring loop are
    embedded over the functions they take from outside: [np.exp], [np.sin],
    [time.sleep] and the outcome of the state provider in each iteration.
    Left out: the creation and joining of the monitoring thread
    ([start_monitoring], [stop_monitoring]) and the drawing done by the
    plotting methods. *)

From Stdlib Require Import Floats ZArith Lia List String Bool.
Import ListNotations.

Set Warnings "-inexact-float".
Local Open Scope string_scope.
Local Open Scope list_scope.
Local Open Scope float_scope.

(** ** The Python builtins the two classes use *)

Module Py.

(** [min(a, b)] keeps its first argument unless the second is strictly
    smaller (so a NaN second argument is never selected). *)
Definition min (a b : float) : float := if b <? a then b else a.

(** [l[-n:]] for a positive [n]: the last [n] elements, all of [l] when it is
    shorter. *)
Definition slice_last {A : Type} (n : nat) (l : list A) : list A :=
  skipn (List.length l - n) l.

(** An exception object.  [is_Exception] tells whether its class derives from
    [Exception]; [SystemExit], [KeyboardInterrupt] and [GeneratorExit] derive
    from [BaseException] only and are not matched by [except Exception]. *)
Record exc : Type := { is_Exception : bool; exc_text : string }.

(** What a call of a procedure over the world [W] does: it returns, or it
    raises, in both cases leaving a world behind. *)
Inductive outcome (W : Type) : Type :=
| Returned (w : W)
| Raised (e : exc) (w : W).
Arguments Returned {W} w.
Arguments Raised {W} e w.

Definition world_after {W : Type} (o : outcome W) : W :=
  match o with Returned w => w | Raised _ w => w end.

(** A record handed to the [logging] module. *)
Inductive log_record : Type :=
| log_info (text : string) (status : string) (beta : float)
| log_warning (text : string) (factor : float)
| log_error (text : string) (e : exc).

End Py.

(** ** [QDTConstants] *)

Record QDTConstants : Type := {
  LAMBDA : float;
  GAMMA : float;
  BETA : float;
  ETA : float
}.

Definition QDTConstants_default : QDTConstants :=
  {| LAMBDA := 0.867; GAMMA := 0.4497; BETA := 0.310; ETA := 0.520 |}.

(** ** [BetaMonitor] *)

(** A registered callback, [Callable[[str, float], None]], acting on the world
    [W] outside the monitor. *)
Definition Callback (W : Type) : Type := string -> float -> W -> Py.outcome W.

Record BetaMonitor (W : Type) : Type := {
  reference_beta : float;
  alert_threshold : float;
  critical_threshold : float;
  emergency_threshold : float;
  current_beta : float;
  beta_history : list float;
  alert_status : string;
  alert_callbacks : list (Callback W);
  monitor_active : bool
}.
Arguments reference_beta {W} _.
Arguments alert_threshold {W} _.
Arguments critical_threshold {W} _.
Arguments emergency_threshold {W} _.
Arguments current_beta {W} _.
Arguments beta_history {W} _.
Arguments alert_status {W} _.
Arguments alert_callbacks {W} _.
Arguments monitor_active {W} _.

(** One invocation of a registered callback: its position in
    [alert_callbacks] and the two arguments it was called with. *)
Record Invocation : Type := {
  cb_index : nat;
  arg_status : string;
  arg_beta : float
}.

(** What a call of [update_beta] (or of [_notify_callbacks]) leaves behind: the
    monitor, the world, the callback invocations made, in order, the
    notification rounds started (one [(status, beta)] pair per call of
    [_notify_callbacks]), the records logged, and the exception that escaped
    to the caller, if any. *)
Record Run (W : Type) : Type := {
  mon : BetaMonitor W;
  world : W;
  calls : list Invocation;
  notifications : list (string * float);
  logged : list Py.log_record;
  propagated : option Py.exc
}.
Arguments mon {W} _.
Arguments world {W} _.
Arguments calls {W} _.
Arguments notifications {W} _.
Arguments logged {W} _.
Arguments propagated {W} _.

Section Monitor.

Context {W : Type}.

(** [BetaMonitor.__init__] *)
Definition BetaMonitor_init
    (reference alert critical emergency : float) : BetaMonitor W :=
  {| reference_beta := reference;
     alert_threshold := alert;
     critical_threshold := critical;
     emergency_threshold := emergency;
     current_beta := reference;
     beta_history := [];
     alert_status := "NORMAL";
     alert_callbacks := [];
     monitor_active := false |}.

(** The constructor called with its default arguments. *)
Definition BetaMonitor_default : BetaMonitor W :=
  BetaMonitor_init 0.310 0.05 (-0.05) (-0.15).

Definition set_current_beta (self : BetaMonitor W) (b : float) :=
  {| reference_beta := reference_beta self;
     alert_threshold := alert_threshold self;
     critical_threshold := critical_threshold self;
     emergency_threshold := emergency_threshold self;
     current_beta := b;
     beta_history := beta_history self;
     alert_status := alert_status self;
     alert_callbacks := alert_callbacks self;
     monitor_active := monitor_active self |}.

Definition set_beta_history (self : BetaMonitor W) (h : list float) :=
  {| reference_beta := reference_beta self;
     alert_threshold := alert_threshold self;
     critical_threshold := critical_threshold self;
     emergency_threshold := emergency_threshold self;
     current_beta := current_beta self;
     beta_history := h;
     alert_status := alert_status self;
     alert_callbacks := alert_callbacks self;
     monitor_active := monitor_active self |}.

Definition set_alert_status (self : BetaMonitor W) (s : string) :=
  {| reference_beta := reference_beta self;
     alert_threshold := alert_threshold self;
     critical_threshold := critical_threshold self;
     emergency_threshold := emergency_threshold self;
     current_beta := current_beta self;
     beta_history := beta_history self;
     alert_status := s;
     alert_callbacks := alert_callbacks self;
     monitor_active := monitor_active self |}.

Definition set_alert_callbacks (self : BetaMonitor W) (l : list (Callback W)) :=
  {| reference_beta := reference_beta self;
     alert_threshold := alert_threshold self;
     critical_threshold := critical_threshold self;
     emergency_threshold := emergency_threshold self;
     current_beta := current_beta self;
     beta_history := beta_history self;
     alert_status := alert_status self;
     alert_callbacks := l;
     monitor_active := monitor_active self |}.

(** [register_alert_callback]: [self.alert_callbacks.append(callback)] *)
Definition register_alert_callback
    (self : BetaMonitor W) (callback : Callback W) : BetaMonitor W :=
  set_alert_callbacks self (alert_callbacks self ++ [callback]).

(** The loop of [_notify_callbacks] from the callback at position [i] on.
    Each callback is called with [self.alert_status] and [self.current_beta];
    an exception matched by [except Exception] is logged and the loop goes
    on, any other exception leaves the loop and the method. *)
Fixpoint notify_from (self : BetaMonitor W) (i : nat)
    (callbacks : list (Callback W)) (w : W)
    : W * list Invocation * list Py.log_record * option Py.exc :=
  match callbacks with
  | [] => (w, [], [], None)
  | callback :: rest =>
      let call := {| cb_index := i;
                     arg_status := alert_status self;
                     arg_beta := current_beta self |} in
      match callback (alert_status self) (current_beta self) w with
      | Py.Returned w1 =>
          let '(w2, cs, ls, p) := notify_from self (S i) rest w1 in
          (w2, call :: cs, ls, p)
      | Py.Raised e w1 =>
          if Py.is_Exception e then
            let '(w2, cs, ls, p) := notify_from self (S i) rest w1 in
            (w2, call :: cs, Py.log_error "Error in callback: " e :: ls, p)
          else (w1, [call], [], Some e)
      end
  end.

(** [_notify_callbacks] *)
Definition _notify_callbacks (self : BetaMonitor W) (w : W) : Run W :=
  let '(w', cs, ls, p) := notify_from self 0 (alert_callbacks self) w in
  {| mon := self; world := w'; calls := cs;
     notifications := [(alert_status self, current_beta self)];
     logged := ls; propagated := p |}.

(** The trigger check of [update_beta]: the status the chain of comparisons
    assigns to [new_beta]. *)
Definition triggered_status (self : BetaMonitor W) (new_beta : float) : string :=
  if new_beta <=? emergency_threshold self then "EMERGENCY"
  else if new_beta <=? critical_threshold self then "CRITICAL"
  else if new_beta <=? alert_threshold self then "ALERT"
  else "NORMAL".

(** [update_beta] *)
Definition update_beta (self : BetaMonitor W) (new_beta : float) (w : W) : Run W :=
  let self := set_current_beta self new_beta in
  let self := set_beta_history self (beta_history self ++ [new_beta]) in
  let self :=
    if (1000 <? List.length (beta_history self))%nat
    then set_beta_history self (Py.slice_last 1000 (beta_history self))
    else self in
  let previous_status := alert_status self in
  let self := set_alert_status self (triggered_status self new_beta) in
  if negb (String.eqb previous_status (alert_status self))
  then _notify_callbacks self w
  else {| mon := self; world := w; calls := []; notifications := [];
          logged := []; propagated := None |}.

(** A caller feeding the values [vs] to [update_beta] one after the other:
    the run of every call, in order. *)
Fixpoint feed (self : BetaMonitor W) (w : W) (vs : list float) : list (Run W) :=
  match vs with
  | [] => []
  | v :: vs' =>
      let r := update_beta self v w in
      r :: feed (mon r) (world r) vs'
  end.

(** The monitor after the values [vs] have been fed. *)
Definition monitor_after (self : BetaMonitor W) (w : W) (vs : list float)
    : BetaMonitor W :=
  last (map mon (feed self w vs)) self.

End Monitor.

(** ** [QDTSystemCorrector] *)

(** An entry of [corrective_actions_history] (a dict with these five keys;
    [ca_alert_status] is the key ['alert_status']). *)
Record CorrectiveAction : Type := {
  timestamp : float;
  ca_alert_status : string;
  beta_value : float;
  action : string;
  correction_factor : float
}.

(** The dict [get_correction_parameters] returns. *)
Record CorrectionParameters : Type := {
  void_energy_boost : float;
  lambda_adjustment : float;
  gamma_increase : float;
  stabilization_factor : float
}.

(** The corrector object.  Its attribute [beta_monitor] is a reference to the
    monitor; the methods below receive the monitor it points to as their
    argument [beta_monitor]. *)
Record QDTSystemCorrector : Type := {
  constants : QDTConstants;
  corrective_actions_history : list CorrectiveAction
}.

(** The world the corrector's methods act on: the corrector object, the number
    of times the wall clock has been read, and what went to [logging]. *)
Record CorrectorWorld : Type := {
  corrector : QDTSystemCorrector;
  clock_reads : nat;
  log_output : list Py.log_record
}.

Section Corrector.

(** [time.time()]: the value of the [n]-th reading of the wall clock. *)
Variable time_time : nat -> float.

Definition emit (w : CorrectorWorld) (r : Py.log_record) : CorrectorWorld :=
  {| corrector := corrector w;
     clock_reads := clock_reads w;
     log_output := log_output w ++ [r] |}.

(** [apply_corrective_action]; returns the world and [correction_factor]. *)
Definition apply_corrective_action {M : Type} (beta_monitor : BetaMonitor M)
    (w : CorrectorWorld) (alert_status : string) (current_beta : float)
    : CorrectorWorld * float :=
  let correction_needed := reference_beta beta_monitor - current_beta in
  let '(correction_factor, action, message) :=
    if String.eqb alert_status "EMERGENCY" then
      (Py.min 1.0 (correction_needed / 0.5), "EMERGENCY_RESET",
       "EMERGENCY RESET applied: β correction of ")
    else if String.eqb alert_status "CRITICAL" then
      (Py.min 0.7 (correction_needed / 0.6), "STRONG_CORRECTION",
       "Strong correction applied: β correction of ")
    else
      (Py.min 0.3 (correction_needed / 0.8), "GENTLE_CORRECTION",
       "Gentle correction applied: β correction of ") in
  let w := emit w (Py.log_warning message correction_factor) in
  let entry := {| timestamp := time_time (clock_reads w);
                  ca_alert_status := alert_status;
                  beta_value := current_beta;
                  action := action;
                  correction_factor := correction_factor |} in
  ({| corrector :=
        {| constants := constants (corrector w);
           corrective_actions_history :=
             corrective_actions_history (corrector w) ++ [entry] |};
      clock_reads := S (clock_reads w);
      log_output := log_output w |},
   correction_factor).

(** [alert_handler], the callback the corrector registers. *)
Definition alert_handler {M : Type} (beta_monitor : BetaMonitor M)
    : Callback CorrectorWorld :=
  fun alert_status current_beta w =>
    let w := emit w (Py.log_info "Alert received: " alert_status current_beta) in
    if existsb (String.eqb alert_status) ["ALERT"; "CRITICAL"; "EMERGENCY"]
    then Py.Returned (fst (apply_corrective_action beta_monitor w alert_status current_beta))
    else Py.Returned w.

(** [QDTSystemCorrector.__init__]: the new corrector, and the monitor with
    [alert_handler] registered. *)
Definition QDTSystemCorrector_init (beta_monitor : BetaMonitor CorrectorWorld)
    (qdt_constants : QDTConstants)
    : QDTSystemCorrector * BetaMonitor CorrectorWorld :=
  ({| constants := qdt_constants; corrective_actions_history := [] |},
   register_alert_callback beta_monitor (alert_handler beta_monitor)).

(** [get_correction_parameters] *)
Definition get_correction_parameters (self : QDTSystemCorrector)
    : CorrectionParameters :=
  match corrective_actions_history self with
  | [] =>
      {| void_energy_boost := 0.0;
         lambda_adjustment := 0.0;
         gamma_increase := 0.0;
         stabilization_factor := 1.0 |}
  | first :: rest =>
      let last_correction := last rest first in
      let correction_factor := correction_factor last_correction in
      if String.eqb (action last_correction) "EMERGENCY_RESET" then
        {| void_energy_boost := 0.5 * correction_factor;
           lambda_adjustment := 0.1 * correction_factor;
           gamma_increase := 0.2 * correction_factor;
           stabilization_factor := 1 + correction_factor |}
      else if String.eqb (action last_correction) "STRONG_CORRECTION" then
        {| void_energy_boost := 0.3 * correction_factor;
           lambda_adjustment := 0.05 * correction_factor;
           gamma_increase := 0.1 * correction_factor;
           stabilization_factor := 1 + 0.7 * correction_factor |}
      else
        {| void_energy_boost := 0.1 * correction_factor;
           lambda_adjustment := 0.02 * correction_factor;
           gamma_increase := 0.05 * correction_factor;
           stabilization_factor := 1 + 0.3 * correction_factor |}
  end.

End Corrector.

(** A fresh world around a corrector. *)
Definition fresh_world (c : QDTSystemCorrector) : CorrectorWorld :=
  {| corrector := c; clock_reads := 0; log_output := [] |}.

(** ** Vocabulary of the statements *)

(** The severity bands as the specification words them (section 4.1):
    EMERGENCY if [value <= emergency], else CRITICAL if [value <= critical],
    else ALERT if [value <= alert], else NORMAL. *)
Module Spec.

Inductive Severity : Type := NORMAL | ALERT | CRITICAL | EMERGENCY.

Definition classify (value emergency critical alert : float) : Severity :=
  if value <=? emergency then EMERGENCY
  else if value <=? critical then CRITICAL
  else if value <=? alert then ALERT
  else NORMAL.

Definition name (s : Severity) : string :=
  match s with
  | NORMAL => "NORMAL"
  | ALERT => "ALERT"
  | CRITICAL => "CRITICAL"
  | EMERGENCY => "EMERGENCY"
  end.

End Spec.

(** [0 <= f <= 1] *)
Definition in_unit_interval (f : float) : bool := (0 <=? f) && (f <=? 1).

(** A binary64 value that is NaN or carries no minus sign, unless it is a
    signed zero. *)
Definition SFnonneg (x : spec_float) : bool :=
  match x with
  | S754_nan => true
  | S754_zero _ => true
  | S754_infinity s => negb s
  | S754_finite s _ _ => negb s
  end.

(** Every exception a callback of the list can raise derives from
    [Exception]. *)
Definition faults_are_Exceptions {W : Type} (callbacks : list (Callback W)) : Prop :=
  Forall (fun callback : Callback W =>
            forall s b w e w', callback s b w = Py.Raised e w' ->
                               Py.is_Exception e = true) callbacks.

(** One invocation of each of [n] callbacks, in registration order, all with
    the arguments [(s, b)]. *)
Definition invocations (first n : nat) (s : string) (b : float) : list Invocation :=
  map (fun i => {| cb_index := i; arg_status := s; arg_beta := b |}) (seq first n).

(** The severity transitions along the samples [vs], starting from the stored
    status [previous]: a sample contributes [(status, value)] exactly when the
    status the monitor [self] assigns to it differs from the stored one. *)
Fixpoint transitions {W : Type} (self : BetaMonitor W) (previous : string)
    (vs : list float) : list (string * float) :=
  match vs with
  | [] => []
  | v :: vs' =>
      let s := triggered_status self v in
      (if String.eqb previous s then [] else [(s, v)]) ++ transitions self s vs'
  end.

(** ** Instances the examples run on *)


(** A callback that records its arguments in the world. *)
Definition recording_callback : Callback (list (string * float)) :=
  fun s b w => Py.Returned (w ++ [(s, b)]).


(** The default monitor, without callbacks, over a trivial world. *)
Definition plain_monitor : BetaMonitor unit := BetaMonitor_default.

(** The plain monitor once the sample [0.04] has put it in status ALERT. *)
Definition alerted_monitor : BetaMonitor unit :=
  mon (update_beta plain_monitor 0.04 tt).

(** A corrector that has taken no action yet. *)
Definition idle_corrector : QDTSystemCorrector :=
  {| constants := QDTConstants_default; corrective_actions_history := [] |}.

(** A wall clock that stands still. *)
Definition frozen_clock : nat -> float := fun _ => 0.

(** 1001 samples: one ALERT-band value followed by a thousand at the
    reference. *)
Definition long_run : list float := 0.04 :: repeat 0.31 1000.

(** An emergency reset of full strength, and a corrector whose history ends
    with it. *)
Definition reset_entry : CorrectiveAction :=
  {| timestamp := 0; ca_alert_status := "EMERGENCY"; beta_value := -0.20;
     action := "EMERGENCY_RESET"; correction_factor := 1.0 |}.

Definition reset_corrector : QDTSystemCorrector :=
  {| constants := QDTConstants_default;
     corrective_actions_history := [reset_entry] |}.

(** A callback that leaves through [SystemExit], which does not derive from
    [Exception], and the default monitor with it registered before the
    recording callback. *)
Definition exiting_callback : Callback (list (string * float)) :=
  fun _ _ w => Py.Raised {| Py.is_Exception := false; Py.exc_text := "exit" |} w.

Definition exiting_monitor : BetaMonitor (list (string * float)) :=
  register_alert_callback
    (register_alert_callback BetaMonitor_default exiting_callback)
    recording_callback.

(** The demonstration set-up: the default monitor with a corrector attached,
    and the runs of the samples 0.31, 0.04, -0.06, -0.20, 0.31. *)
Definition monitored_system : QDTSystemCorrector * BetaMonitor CorrectorWorld :=
  QDTSystemCorrector_init frozen_clock BetaMonitor_default QDTConstants_default.

Definition scenario_runs : list (Run CorrectorWorld) :=
  feed (snd monitored_system) (fresh_world (fst monitored_system))
       [0.31; 0.04; -0.06; -0.20; 0.31].

(** A gentle correction requested at the value 1.0, above the reference. *)
Definition overshoot_correction : CorrectorWorld * float :=
  apply_corrective_action frozen_clock plain_monitor
    (fresh_world idle_corrector) "ALERT" 1.0.

(** ** The rest of [BetaMonitor] *)

(** [get_status_color] *)
Definition get_status_color {W : Type} (self : BetaMonitor W) : string :=
  if String.eqb (alert_status self) "EMERGENCY" then "#FF0000"
  else if String.eqb (alert_status self) "CRITICAL" then "#FF7700"
  else if String.eqb (alert_status self) "ALERT" then "#FFFF00"
  else "#00FF00".

(** [l[i:]] for an integer [i]: a negative [i] counts from the end and stops
    at the start of the list. *)
Definition slice_from {A : Type} (i : Z) (l : list A) : list A :=
  if (i <? 0)%Z then skipn (List.length l - Z.to_nat (- i)) l
  else skipn (Z.to_nat i) l.

(** A value, or the exception raised instead of it. *)
Inductive returns (A : Type) : Type :=
| Value (a : A)
| Raises (e : Py.exc).
Arguments Value {A} a.
Arguments Raises {A} e.

Definition ZeroDivisionError : Py.exc :=
  {| Py.is_Exception := true; Py.exc_text := "float division by zero" |}.

Definition IndexError : Py.exc :=
  {| Py.is_Exception := true; Py.exc_text := "list index out of range" |}.

(** [a / b] on Python floats: dividing by a zero of either sign raises. *)
Definition float_div (a b : float) : returns float :=
  if b =? 0 then Raises ZeroDivisionError else Value (a / b).

(** The first statement of [visualize_beta_history]: the samples it plots. *)
Definition displayed_history {W : Type} (self : BetaMonitor W) (window_size : Z)
    : list float :=
  if (window_size <? Z.of_nat (List.length (beta_history self)))%Z
  then slice_from (- window_size) (beta_history self)
  else beta_history self.

(** The point [visualize_beta_history] highlights,
    [(len(history) - 1, history[-1])]; indexing an empty list raises. *)
Definition highlighted_point {W : Type} (self : BetaMonitor W) (window_size : Z)
    : returns (Z * float) :=
  match displayed_history self window_size with
  | [] => Raises IndexError
  | first :: rest =>
      Value ((Z.of_nat (List.length (first :: rest)) - 1)%Z, last rest first)
  end.

(** The dict a state provider returns, and [dict.get(key, default)]. *)
Definition SystemState : Type := string -> option float.

Definition dict_get (d : SystemState) (key : string) (default : float) : float :=
  match d key with
  | Some x => x
  | None => default
  end.

(** A record the monitoring loop hands to [logging]: its own warning and
    error, or a record logged inside [update_beta]. *)
Inductive loop_record : Type :=
| loop_warning (status : string) (beta : float)
| loop_error (e : Py.exc)
| from_update (r : Py.log_record).

(** The loop of [start_monitoring] between two iterations: the monitor, the
    world, the local [time_factor], what was logged, and the exception that
    ended the loop, if any. *)
Record LoopState (W : Type) : Type := {
  loop_monitor : BetaMonitor W;
  loop_world : W;
  time_factor : float;
  loop_logged : list loop_record;
  escaped : option Py.exc
}.
Arguments loop_monitor {W} _.
Arguments loop_world {W} _.
Arguments time_factor {W} _.
Arguments loop_logged {W} _.
Arguments escaped {W} _.

Section Monitoring.

Context {W : Type}.

(** [np.exp] and [np.sin] on a float. *)
Variables np_exp np_sin : float -> float.

(** [time.sleep(seconds)]: the exception it raises for this argument, if it
    raises one. *)
Variable time_sleep : float -> option Py.exc.

(** [calculate_effective_beta] *)
Definition calculate_effective_beta (self : BetaMonitor W)
    (system_state : SystemState) (time_factor : float) : returns float :=
  let void_energy := dict_get system_state "void_energy" 0.5 in
  let filament_energy := dict_get system_state "filament_energy" 0.5 in
  let temperature := dict_get system_state "temperature" 0 in
  let coupling := dict_get system_state "coupling" (LAMBDA QDTConstants_default) in
  match float_div void_energy filament_energy with
  | Raises e => Raises e
  | Value ratio =>
      let base_beta := reference_beta self * ratio * coupling in
      let time_mediation :=
        np_exp ((- GAMMA QDTConstants_default) * time_factor) *
        np_sin (2 * 3.141592653589793 * time_factor * ETA QDTConstants_default) in
      let effective_beta := base_beta * (1 + 0.2 * time_mediation) in
      if 0.1 <? abs temperature
      then
        let temp_factor := 1 - 0.05 * abs temperature in
        Value (effective_beta * temp_factor)
      else Value effective_beta
  end.

Definition loop_log (st : LoopState W) (rs : list loop_record) : LoopState W :=
  {| loop_monitor := loop_monitor st;
     loop_world := loop_world st;
     time_factor := time_factor st;
     loop_logged := loop_logged st ++ rs;
     escaped := escaped st |}.

Definition loop_escape (st : LoopState W) (e : Py.exc) : LoopState W :=
  {| loop_monitor := loop_monitor st;
     loop_world := loop_world st;
     time_factor := time_factor st;
     loop_logged := loop_logged st;
     escaped := Some e |}.

(** The [except Exception] clause of the loop body, entered in the state [st]
    with the exception [e]: an [Exception] is logged and the loop sleeps,
    anything else leaves the loop. *)
Definition loop_except (interval : float) (st : LoopState W) (e : Py.exc)
    : LoopState W :=
  if Py.is_Exception e then
    let st := loop_log st [loop_error e] in
    match time_sleep interval with
    | Some e' => loop_escape st e'
    | None => st
    end
  else loop_escape st e.

(** One iteration of [monitor_loop], the state provider having returned or
    raised [provided]. *)
Definition monitor_iteration (interval : float)
    (provided : returns SystemState) (st : LoopState W) : LoopState W :=
  match provided with
  | Raises e => loop_except interval st e
  | Value system_state =>
      match calculate_effective_beta (loop_monitor st) system_state (time_factor st) with
      | Raises e => loop_except interval st e
      | Value effective_beta =>
          let r := update_beta (loop_monitor st) effective_beta (loop_world st) in
          let st :=
            {| loop_monitor := mon r;
               loop_world := world r;
               time_factor := time_factor st;
               loop_logged := loop_logged st ++ map from_update (logged r);
               escaped := escaped st |} in
          match propagated r with
          | Some e => loop_except interval st e
          | None =>
              let st :=
                if negb (String.eqb (alert_status (loop_monitor st)) "NORMAL")
                then loop_log st [loop_warning (alert_status (loop_monitor st))
                                               (current_beta (loop_monitor st))]
                else st in
              match time_sleep interval with
              | Some e => loop_except interval st e
              | None =>
                  {| loop_monitor := loop_monitor st;
                     loop_world := loop_world st;
                     time_factor := time_factor st + interval;
                     loop_logged := loop_logged st;
                     escaped := escaped st |}
              end
          end
      end
  end.

(** [monitor_loop]: [while self.monitor_active] the body runs, [provided]
    holding the outcome of the state provider in each iteration that takes
    place before the flag is cleared from outside. *)
Fixpoint monitor_loop (interval : float) (provided : list (returns SystemState))
    (st : LoopState W) : LoopState W :=
  match provided with
  | [] => st
  | p :: rest =>
      if monitor_active (loop_monitor st) then
        let st' := monitor_iteration interval p st in
        match escaped st' with
        | Some _ => st'
        | None => monitor_loop interval rest st'
        end
      else st
  end.

(** The loop as the monitoring thread enters it: [time_factor = 0]. *)
Definition loop_start (self : BetaMonitor W) (w : W) : LoopState W :=
  {| loop_monitor := self; loop_world := w; time_factor := 0;
     loop_logged := []; escaped := None |}.

(** The values the loop passes to [update_beta]: the effective beta of every
    iteration in which the provider and [calculate_effective_beta] return,
    [time_factor] advancing after each of them. *)
Fixpoint sampled_betas (self : BetaMonitor W) (interval : float)
    (provided : list (returns SystemState)) (time_factor : float) : list float :=
  match provided with
  | [] => []
  | Raises _ :: rest => sampled_betas self interval rest time_factor
  | Value system_state :: rest =>
      match calculate_effective_beta self system_state time_factor with
      | Raises _ => sampled_betas self interval rest time_factor
      | Value b => b :: sampled_betas self interval rest (time_factor + interval)
      end
  end.

End Monitoring.

(** ** More vocabulary *)

(** The world after the values [vs] have been fed. *)
Definition world_after_feed {W : Type} (self : BetaMonitor W) (w : W)
    (vs : list float) : W :=
  last (map world (feed self w vs)) w.

(** The urgency of a status: NORMAL (and any other string) 0, ALERT 1,
    CRITICAL 2, EMERGENCY 3. *)
Definition severity_rank (s : string) : nat :=
  if String.eqb s "EMERGENCY" then 3
  else if String.eqb s "CRITICAL" then 2
  else if String.eqb s "ALERT" then 1
  else 0.

(** The status and the value a corrective action was recorded for. *)
Definition action_trigger (a : CorrectiveAction) : string * float :=
  (ca_alert_status a, beta_value a).

(** A transition into one of the three alert statuses. *)
Definition is_alerting (n : string * float) : bool :=
  existsb (String.eqb (fst n)) ["ALERT"; "CRITICAL"; "EMERGENCY"].

(** Every failure of the state provider is an [Exception]. *)
Definition providers_fail_softly (provided : list (returns SystemState)) : Prop :=
  Forall (fun p => match p with
                   | Raises e => Py.is_Exception e = true
                   | Value _ => True
                   end) provided.

(** The state [d] with the key ['temperature'] set to [t]. *)
Definition with_temperature (d : SystemState) (t : float) : SystemState :=
  fun key => if String.eqb key "temperature" then Some t else d key.

(** ** More instances *)

(** A provider state whose filament energy is zero, and an empty one. *)
Definition dead_state : SystemState :=
  fun key => if String.eqb key "filament_energy" then Some 0 else None.

Definition empty_state : SystemState := fun _ => None.

(** Stand-ins for [np.exp] and [np.sin], and a [time.sleep] that returns. *)
Definition flat_exp : float -> float := fun _ => 1.
Definition flat_sin : float -> float := fun _ => 0.
Definition sleeps : float -> option Py.exc := fun _ => None.

(** The default monitor with [self.monitor_active = True], as
    [start_monitoring] leaves it. *)
Definition active_monitor : BetaMonitor unit :=
  {| reference_beta := reference_beta plain_monitor;
     alert_threshold := alert_threshold plain_monitor;
     critical_threshold := critical_threshold plain_monitor;
     emergency_threshold := emergency_threshold plain_monitor;
     current_beta := current_beta plain_monitor;
     beta_history := beta_history plain_monitor;
     alert_status := alert_status plain_monitor;
     alert_callbacks := alert_callbacks plain_monitor;
     monitor_active := true |}.

(** The default monitor with three samples recorded. *)
Definition sampled_monitor : BetaMonitor unit :=
  monitor_after plain_monitor tt [0.31; 0.04; -0.06].

(** A [time.sleep] that rejects negative arguments, as CPython's does. *)
Definition strict_sleep : float -> option Py.exc :=
  fun seconds =>
    if seconds <? 0
    then Some {| Py.is_Exception := true;
                 Py.exc_text := "sleep length must be non-negative" |}
    else None.

(** Four iterations of the loop: the provider returns an empty state, then a
    state without filament energy, then fails, then returns an empty state
    again. *)
Definition provider_outcomes : list (returns SystemState) :=
  [ Value empty_state; Value dead_state;
    Raises {| Py.is_Exception := true; Py.exc_text := "provider down" |};
    Value empty_state ].

(** A corrector world whose only action so far is [reset_entry]. *)
Definition reset_world : CorrectorWorld := fresh_world reset_corrector.

(** A monitor built with the critical threshold below the emergency one; the
    constructor accepts any four values. *)
Definition misordered_monitor : BetaMonitor unit :=
  BetaMonitor_init 0.310 0.05 (-0.15) (-0.05).

(** * Facts about binary64 comparison and signs

    The order [SFcompare] puts on [spec_float] is a total preorder away from
    NaN; the primitive comparisons inherit its laws through [ltb_spec] and
    [leb_spec]. *)

(** Case analysis on every integer comparison in sight. *)
Ltac cmp_cases :=
  repeat match goal with
  | H : context [Pos.compare_cont Eq ?a ?b] |- _ =>
      change (Pos.compare_cont Eq a b) with (Pos.compare a b) in H
  | |- context [Pos.compare_cont Eq ?a ?b] =>
      change (Pos.compare_cont Eq a b) with (Pos.compare a b)
  end;
  repeat match goal with
  | H : context [Z.compare ?a ?b] |- _ => destruct (Z.compare_spec a b)
  | |- context [Z.compare ?a ?b] => destruct (Z.compare_spec a b)
  | H : context [Pos.compare ?a ?b] |- _ => destruct (Pos.compare_spec a b)
  | |- context [Pos.compare ?a ?b] => destruct (Pos.compare_spec a b)
  end;
  simpl in *; try congruence; try lia.

Lemma SFcompare_antisym (x y : spec_float) :
  SFcompare y x = option_map CompOpp (SFcompare x y).
Proof.
  destruct x as [[]|[]| |[] mx ex], y as [[]|[]| |[] my ey]; simpl; try reflexivity;
    cmp_cases.
Qed.

Lemma SFcompare_Eq_l (x y z : spec_float) :
  SFcompare x y = Some Eq -> SFcompare x z = SFcompare y z.
Proof.
  destruct x as [[]|[]| |[] mx ex], y as [[]|[]| |[] my ey]; simpl; try discriminate;
    destruct z as [[]|[]| |[] mz ez]; simpl; try reflexivity; intros H; cmp_cases.
Qed.

Lemma SFcompare_Lt_trans (x y z : spec_float) :
  SFcompare x y = Some Lt -> SFcompare y z = Some Lt -> SFcompare x z = Some Lt.
Proof.
  destruct x as [[]|[]| |[] mx ex], y as [[]|[]| |[] my ey]; simpl; try discriminate;
    destruct z as [[]|[]| |[] mz ez]; simpl; try discriminate; try reflexivity;
    intros H1 H2; cmp_cases.
Qed.

Lemma SFcompare_Eq_r (x y z : spec_float) :
  SFcompare y z = Some Eq -> SFcompare x y = SFcompare x z.
Proof.
  destruct y as [[]|[]| |[] my ey], z as [[]|[]| |[] mz ez]; simpl; try discriminate;
    destruct x as [[]|[]| |[] mx ex]; simpl; try reflexivity; intros H; cmp_cases.
Qed.

Lemma SFcompare_None (x y : spec_float) :
  SFcompare x y = None -> x = S754_nan \/ y = S754_nan.
Proof.
  destruct x as [[]|[]| |[] mx ex], y as [[]|[]| |[] my ey]; simpl; try discriminate; auto.
Qed.

Lemma SFcompare_refl (x : spec_float) :
  x <> S754_nan -> SFcompare x x = Some Eq.
Proof.
  destruct x as [[]|[]| |[] mx ex]; simpl; try reflexivity; try congruence;
    intros _; rewrite Z.compare_refl, Pos.compare_cont_refl; reflexivity.
Qed.

Lemma leb_compare (x y : float) :
  (x <=? y) = true <->
  (SFcompare (Prim2SF x) (Prim2SF y) = Some Lt \/ SFcompare (Prim2SF x) (Prim2SF y) = Some Eq).
Proof.
  rewrite FloatAxioms.leb_spec. unfold SFleb.
  destruct (SFcompare (Prim2SF x) (Prim2SF y)) as [[]|]; split; intros H;
    try discriminate; try reflexivity; auto; destruct H; discriminate.
Qed.

Lemma ltb_compare (x y : float) :
  (x <? y) = true <-> SFcompare (Prim2SF x) (Prim2SF y) = Some Lt.
Proof.
  rewrite FloatAxioms.ltb_spec. unfold SFltb.
  destruct (SFcompare (Prim2SF x) (Prim2SF y)) as [[]|]; split; intros H;
    try discriminate; reflexivity.
Qed.

Lemma ltb_leb (x y : float) : (x <? y) = true -> (x <=? y) = true.
Proof. rewrite ltb_compare, leb_compare. auto. Qed.

Lemma ltb_leb_trans (x y z : float) :
  (x <? y) = true -> (y <=? z) = true -> (x <? z) = true.
Proof.
  rewrite !ltb_compare, leb_compare. intros Hxy [Hyz | Hyz].
  - eapply SFcompare_Lt_trans; eassumption.
  - rewrite <- (SFcompare_Eq_r _ _ _ Hyz). exact Hxy.
Qed.

Lemma leb_ltb_trans (x y z : float) :
  (x <=? y) = true -> (y <? z) = true -> (x <? z) = true.
Proof.
  rewrite !ltb_compare, leb_compare. intros [Hxy | Hxy] Hyz.
  - eapply SFcompare_Lt_trans; eassumption.
  - rewrite (SFcompare_Eq_l _ _ _ Hxy). exact Hyz.
Qed.

Lemma leb_trans (x y z : float) :
  (x <=? y) = true -> (y <=? z) = true -> (x <=? z) = true.
Proof.
  intros Hxy Hyz. apply leb_compare in Hxy. destruct Hxy as [Hxy | Hxy].
  - apply ltb_leb. apply ltb_leb_trans with y; [apply ltb_compare|]; assumption.
  - apply leb_compare. rewrite (SFcompare_Eq_l _ _ _ Hxy). apply leb_compare, Hyz.
Qed.

Lemma ltb_trans (x y z : float) :
  (x <? y) = true -> (y <? z) = true -> (x <? z) = true.
Proof. intros Hxy Hyz. apply ltb_leb_trans with y; [|apply ltb_leb]; assumption. Qed.


Lemma leb_not_ltb (x y : float) : (x <=? y) = true -> (y <? x) = false.
Proof.
  rewrite leb_compare, FloatAxioms.ltb_spec. unfold SFltb. intros H.
  rewrite SFcompare_antisym. destruct H as [H | H]; rewrite H; reflexivity.
Qed.

Lemma is_nan_Prim2SF (x : float) :
  is_nan x = true <-> Prim2SF x = S754_nan.
Proof.
  unfold is_nan. rewrite FloatAxioms.eqb_spec. unfold SFeqb. split.
  - intros H. pose proof (SFcompare_refl (Prim2SF x)) as R.
    destruct (Prim2SF x) as [s|s| |s m e]; try reflexivity;
      rewrite R in H by discriminate; discriminate.
  - intros ->. reflexivity.
Qed.

Lemma not_nan_Prim2SF (x : float) :
  is_nan x = false -> Prim2SF x <> S754_nan.
Proof.
  intros H E. apply is_nan_Prim2SF in E. congruence.
Qed.

Lemma leb_false_ltb (x y : float) :
  is_nan x = false -> is_nan y = false -> (x <=? y) = false -> (y <? x) = true.
Proof.
  intros Hx Hy. rewrite FloatAxioms.leb_spec, ltb_spec. unfold SFleb, SFltb.
  rewrite (SFcompare_antisym (Prim2SF x) (Prim2SF y)).
  destruct (SFcompare (Prim2SF x) (Prim2SF y)) as [[]|] eqn:E; simpl; try congruence.
  apply SFcompare_None in E. destruct E as [E | E];
    [apply not_nan_Prim2SF in Hx | apply not_nan_Prim2SF in Hy]; contradiction.
Qed.

Lemma ltb_not_nan (x y : float) :
  (x <? y) = true -> is_nan x = false /\ is_nan y = false.
Proof.
  rewrite ltb_compare. intros H.
  split; apply not_true_is_false; intros E; apply is_nan_Prim2SF in E;
    rewrite E in H; [|destruct (Prim2SF x)]; discriminate.
Qed.

Lemma leb_not_nan (x y : float) :
  (x <=? y) = true -> is_nan x = false /\ is_nan y = false.
Proof.
  rewrite leb_compare. intros H.
  split; apply not_true_is_false; intros E; apply is_nan_Prim2SF in E;
    rewrite E in H; destruct H as [H | H]; try discriminate;
    destruct (Prim2SF x); discriminate.
Qed.

Lemma is_finite_not_nan (x : float) : is_finite x = true -> is_nan x = false.
Proof. unfold is_finite. destruct (is_nan x); simpl; congruence. Qed.

Lemma nan_leb (x : float) : (nan <=? x) = false.
Proof. rewrite FloatAxioms.leb_spec. reflexivity. Qed.

Lemma binary_round_aux_nonneg (mx ex : Z) (lx : location) :
  SFnonneg (binary_round_aux prec emax false mx ex lx) = true.
Proof.
  unfold binary_round_aux.
  destruct (shr_fexp prec emax mx ex lx) as [mrs' e'].
  destruct (shr_fexp prec emax _ e' loc_Exact) as [mrs'' e''].
  destruct (shr_m mrs''); try reflexivity.
  destruct (Z.leb e'' (emax - prec)); reflexivity.
Qed.

Lemma binary_normalize_nonneg (m e : Z) :
  (0 <= m)%Z -> SFnonneg (binary_normalize prec emax m e false) = true.
Proof.
  intros Hm. destruct m as [|p|p]; try lia; try reflexivity.
  unfold binary_normalize, binary_round.
  destruct (shl_align p e _) as [mz ez]. apply binary_round_aux_nonneg.
Qed.

Lemma SFdiv_nonneg (x : spec_float) (m : positive) (e : Z) :
  SFnonneg x = true -> SFnonneg (SF64div x (S754_finite false m e)) = true.
Proof.
  unfold SF64div, SFdiv.
  destruct x as [[]|[]| |[] mx ex]; simpl; intros H; try reflexivity; try discriminate.
  destruct (SFdiv_core_binary prec emax (Z.pos mx) ex (Z.pos m) e) as [[mz ez] lz].
  apply binary_round_aux_nonneg.
Qed.

Lemma digits2_pos_size (m : positive) : digits2_pos m = Pos.size m.
Proof. induction m; simpl; congruence. Qed.

Lemma digits2_pos_bounds (m : positive) :
  (2 ^ (Z.pos (digits2_pos m) - 1) <= Z.pos m < 2 ^ Z.pos (digits2_pos m))%Z.
Proof.
  rewrite digits2_pos_size. split.
  - pose proof (Pos.size_le m) as H.
    apply Pos2Z.pos_le_pos in H. rewrite Pos2Z.inj_pow in H.
    replace (Z.pos (Pos.size m)) with (Z.succ (Z.pos (Pos.size m) - 1)) in H by lia.
    rewrite Z.pow_succ_r in H by lia. lia.
  - pose proof (Pos.size_gt m) as H.
    apply Pos2Z.pos_lt_pos in H. rewrite Pos2Z.inj_pow in H. exact H.
Qed.

Lemma iter_xO_pow (m p : positive) :
  Z.pos (Pos.iter xO m p) = (Z.pos m * 2 ^ Z.pos p)%Z.
Proof.
  induction p using Pos.peano_ind.
  - simpl. lia.
  - rewrite Pos.iter_succ, Pos2Z.inj_succ, Z.pow_succ_r by lia.
    rewrite Pos2Z.inj_xO, IHp. lia.
Qed.

Lemma shl_align_fst (m : positive) (e ez : Z) :
  (ez <= e)%Z -> Z.pos (fst (shl_align m e ez)) = (Z.pos m * 2 ^ (e - ez))%Z.
Proof.
  intros H. unfold shl_align. destruct (ez - e)%Z as [|p|p] eqn:D.
  - replace (e - ez)%Z with 0%Z by lia. rewrite Z.pow_0_r, Z.mul_1_r. reflexivity.
  - lia.
  - cbn [fst]. rewrite iter_xO_pow. f_equal. f_equal. lia.
Qed.

Lemma bounded_canonical (m : positive) (e : Z) :
  bounded prec emax m e = true ->
  Z.max (Z.pos (digits2_pos m) + e - 53) (-1074) = e.
Proof.
  unfold bounded, canonical_mantissa, fexp, SpecFloat.emin, prec, emax.
  intros H. apply andb_prop in H. destruct H as [H _].
  apply Z.eqb_eq in H. exact H.
Qed.

(** For canonical mantissas, a larger exponent gives a larger aligned
    mantissa. *)
Lemma aligned_lt (m1 m2 : positive) (e1 e2 : Z) :
  bounded prec emax m1 e1 = true -> bounded prec emax m2 e2 = true ->
  (e2 < e1)%Z ->
  (Z.pos (fst (shl_align m2 e2 (Z.min e1 e2))) <
   Z.pos (fst (shl_align m1 e1 (Z.min e1 e2))))%Z.
Proof.
  intros B1 B2 He. apply bounded_canonical in B1, B2.
  rewrite Z.min_r by lia. rewrite !shl_align_fst by lia.
  rewrite Z.sub_diag, Z.mul_1_r.
  pose proof (digits2_pos_bounds m1) as [L1 _].
  pose proof (digits2_pos_bounds m2) as [_ U2].
  assert (D1 : Z.pos (digits2_pos m1) = 53%Z) by lia.
  assert (D2 : (Z.pos (digits2_pos m2) <= 53)%Z) by lia.
  rewrite D1 in L1.
  assert (U2' : (Z.pos m2 < 2 ^ 53)%Z).
  { eapply Z.lt_le_trans; [exact U2|]. apply Z.pow_le_mono_r; lia. }
  assert (P : (2 ^ 1 <= 2 ^ (e1 - e2))%Z) by (apply Z.pow_le_mono_r; lia).
  change (2 ^ (53 - 1))%Z with 4503599627370496%Z in L1.
  change (2 ^ 53)%Z with 9007199254740992%Z in U2'.
  change (2 ^ 1)%Z with 2%Z in P.
  nia.
Qed.

Lemma aligned_same (m : positive) (e : Z) :
  Z.pos (fst (shl_align m e (Z.min e e))) = Z.pos m.
Proof. rewrite Z.min_id, shl_align_fst, Z.sub_diag by lia. lia. Qed.

Lemma aligned_diff_nonneg (sx sy : bool) (mx my : positive) (ex ey : Z) :
  bounded prec emax mx ex = true -> bounded prec emax my ey = true ->
  SFltb (S754_finite sx mx ex) (S754_finite sy my ey) = false ->
  (0 <= SpecFloat.cond_Zopp sx (Z.pos (fst (shl_align mx ex (Z.min ex ey)))) -
        SpecFloat.cond_Zopp sy (Z.pos (fst (shl_align my ey (Z.min ex ey)))))%Z.
Proof.
  intros Vx Vy. unfold SFltb, SFcompare, SpecFloat.cond_Zopp.
  change (Pos.compare_cont Eq mx my) with (Pos.compare mx my).
  destruct sx, sy; try discriminate; try lia;
    destruct (Z.compare_spec ex ey) as [E | E | E]; try discriminate; intros H.
  - subst ey. rewrite !aligned_same.
    destruct (Pos.compare_spec mx my); simpl in H; try discriminate; lia.
  - pose proof (aligned_lt my mx ey ex Vy Vx E) as A.
    rewrite Z.min_comm in A. lia.
  - subst ey. rewrite !aligned_same.
    destruct (Pos.compare_spec mx my); simpl in H; try discriminate; lia.
  - pose proof (aligned_lt mx my ex ey Vx Vy E) as A. lia.
Qed.

Lemma SFsub_nonneg (x y : spec_float) :
  valid_binary x = true -> valid_binary y = true ->
  SFltb x y = false -> SFnonneg (SF64sub x y) = true.
Proof.
  unfold SF64sub, SFsub.
  destruct x as [sx|sx| |sx mx ex], y as [sy|sy| |sy my ey]; intros Vx Vy H;
    try (apply binary_normalize_nonneg, aligned_diff_nonneg; assumption);
    try (destruct sx); try (destruct sy); try reflexivity; discriminate.
Qed.

Lemma sub_div_nonneg (x y d : float) (m : positive) (e : Z) :
  Prim2SF d = S754_finite false m e ->
  (x <? y) = false -> SFnonneg (Prim2SF ((x - y) / d)) = true.
Proof.
  intros Hd H. rewrite div_spec, sub_spec, Hd. apply SFdiv_nonneg, SFsub_nonneg.
  - apply Prim2SF_valid.
  - apply Prim2SF_valid.
  - rewrite <- FloatAxioms.ltb_spec. exact H.
Qed.

Lemma nonneg_zero_leb (q : float) :
  SFnonneg (Prim2SF q) = true -> is_nan q = false -> (0 <=? q) = true.
Proof.
  intros H N. apply not_nan_Prim2SF in N. rewrite FloatAxioms.leb_spec.
  change (Prim2SF 0) with (S754_zero false).
  destruct (Prim2SF q) as [[]|[]| |[] mq eq]; try reflexivity; try discriminate.
  congruence.
Qed.

(** * Facts about [Py.slice_last] *)

Lemma slice_last_length {A : Type} (n : nat) (l : list A) :
  List.length (Py.slice_last n l) = Nat.min n (List.length l).
Proof. unfold Py.slice_last. rewrite length_skipn. lia. Qed.

Lemma slice_last_short {A : Type} (n : nat) (l : list A) :
  (List.length l <= n)%nat -> Py.slice_last n l = l.
Proof.
  intros H. unfold Py.slice_last.
  replace (List.length l - n)%nat with 0%nat by lia. reflexivity.
Qed.

Lemma slice_last_app {A : Type} (n : nat) (l r : list A) :
  Py.slice_last n (Py.slice_last n l ++ r) = Py.slice_last n (l ++ r).
Proof.
  unfold Py.slice_last.
  rewrite !skipn_app, !length_app, !length_skipn, skipn_skipn.
  f_equal; f_equal; lia.
Qed.

Lemma slice_last_snoc {A : Type} (n : nat) (l : list A) (x : A) :
  Py.slice_last (S n) (l ++ [x]) = Py.slice_last n l ++ [x].
Proof.
  unfold Py.slice_last. rewrite skipn_app, length_app. cbn [List.length].
  replace (List.length l + 1 - S n)%nat with (List.length l - n)%nat by lia.
  replace (List.length l - n - List.length l)%nat with 0%nat by lia.
  reflexivity.
Qed.

(** * What one call of [update_beta] does to the monitor *)

Section UpdateFacts.

Context {W : Type}.
Implicit Types (self : BetaMonitor W) (w : W) (v : float).

Lemma notify_mon self w : mon (_notify_callbacks self w) = self.
Proof.
  unfold _notify_callbacks.
  destruct (notify_from self 0 (alert_callbacks self) w) as [[[w' cs] ls] p].
  reflexivity.
Qed.


(** The fields of the monitor a call of [update_beta] returns. *)
Lemma update_beta_mon self v w :
  mon (update_beta self v w) =
  {| reference_beta := reference_beta self;
     alert_threshold := alert_threshold self;
     critical_threshold := critical_threshold self;
     emergency_threshold := emergency_threshold self;
     current_beta := v;
     beta_history := Py.slice_last 1000 (beta_history self ++ [v]);
     alert_status := triggered_status self v;
     alert_callbacks := alert_callbacks self;
     monitor_active := monitor_active self |}.
Proof.
  unfold update_beta.
  match goal with |- context [negb ?b] => destruct (negb b) end;
    rewrite ?notify_mon; cbv beta zeta;
    cbn [set_current_beta set_beta_history set_alert_status beta_history];
    destruct (Nat.ltb_spec 1000 (List.length (beta_history self ++ [v])));
    cbn [set_current_beta set_beta_history set_alert_status beta_history
         reference_beta alert_threshold critical_threshold emergency_threshold
         current_beta alert_status alert_callbacks monitor_active mon];
    try reflexivity;
    rewrite slice_last_short by lia; reflexivity.
Qed.

Lemma update_beta_status self v w :
  alert_status (mon (update_beta self v w)) = triggered_status self v.
Proof. rewrite update_beta_mon. reflexivity. Qed.

Lemma update_beta_triggered self v w v' :
  triggered_status (mon (update_beta self v w)) v' = triggered_status self v'.
Proof. rewrite update_beta_mon. reflexivity. Qed.

Lemma update_beta_callbacks self v w :
  alert_callbacks (mon (update_beta self v w)) = alert_callbacks self.
Proof. rewrite update_beta_mon. reflexivity. Qed.


(** With callbacks that only raise [Exception]s the loop of
    [_notify_callbacks] runs to its end: every callback is invoked once, in
    order, and nothing escapes. *)
Lemma notify_from_isolates self callbacks :
  faults_are_Exceptions callbacks ->
  forall i w,
    notify_from self i callbacks w =
    (fold_left (fun w' callback =>
                  Py.world_after (callback (alert_status self) (current_beta self) w'))
               callbacks w,
     invocations i (List.length callbacks) (alert_status self) (current_beta self),
     snd (fst (notify_from self i callbacks w)),
     None).
Proof.
  induction 1 as [|callback rest Hc _ IH]; intros i w.
  - reflexivity.
  - cbn [notify_from fold_left List.length]. unfold invocations. cbn [seq map].
    fold (invocations (S i) (List.length rest) (alert_status self) (current_beta self)).
    destruct (callback (alert_status self) (current_beta self) w) as [w1 | e w1] eqn:E.
    + rewrite (IH (S i) w1). reflexivity.
    + rewrite (Hc _ _ _ _ _ E). rewrite (IH (S i) w1). reflexivity.
Qed.

Lemma notify_isolates self w :
  faults_are_Exceptions (alert_callbacks self) ->
  propagated (_notify_callbacks self w) = None /\
  calls (_notify_callbacks self w) =
    invocations 0 (List.length (alert_callbacks self))
                (alert_status self) (current_beta self) /\
  world (_notify_callbacks self w) =
    fold_left (fun w' callback =>
                 Py.world_after (callback (alert_status self) (current_beta self) w'))
              (alert_callbacks self) w.
Proof.
  intros H. unfold _notify_callbacks.
  rewrite (notify_from_isolates self _ H 0 w). auto.
Qed.

(** The callback invocations a call of [update_beta] makes when no callback
    can raise anything but an [Exception]. *)
Lemma update_beta_calls self v w :
  faults_are_Exceptions (alert_callbacks self) ->
  propagated (update_beta self v w) = None /\
  calls (update_beta self v w) =
    if String.eqb (alert_status self) (triggered_status self v) then []
    else invocations 0 (List.length (alert_callbacks self)) (triggered_status self v) v.
Proof.
  intros H. unfold update_beta. cbv beta zeta.
  match goal with |- context [Nat.ltb 1000 ?n] => destruct (Nat.ltb 1000 n) end;
    match goal with |- context [negb (String.eqb ?a ?b)] =>
      change (String.eqb a b)
        with (String.eqb (alert_status self) (triggered_status self v));
      destruct (String.eqb (alert_status self) (triggered_status self v))
    end; cbn [negb]; try (split; reflexivity);
    match goal with |- context [_notify_callbacks ?m w] =>
      destruct (notify_isolates m w H) as (P & C & _); rewrite P, C
    end; split; reflexivity.
Qed.

End UpdateFacts.

(** * Feeding a sequence of samples *)

Section FeedFacts.

Context {W : Type}.
Implicit Types (self : BetaMonitor W) (w : W) (v : float).

Lemma last_cons {A : Type} (l : list A) (a d : A) : last (a :: l) d = last l a.
Proof.
  revert a d. induction l as [|b l IH]; intros a d; [reflexivity|].
  change (last (a :: b :: l) d) with (last (b :: l) d).
  rewrite (IH b d), (IH b a). reflexivity.
Qed.

Lemma monitor_after_cons self w v vs :
  monitor_after self w (v :: vs) =
  monitor_after (mon (update_beta self v w)) (world (update_beta self v w)) vs.
Proof. unfold monitor_after. cbn [feed map]. apply last_cons. Qed.

Lemma transitions_ext self self' previous vs :
  (forall v, triggered_status self v = triggered_status self' v) ->
  transitions self previous vs = transitions self' previous vs.
Proof.
  intros H. revert previous. induction vs as [|v vs IH]; intros previous.
  - reflexivity.
  - cbn [transitions]. rewrite H, IH. reflexivity.
Qed.



Lemma transitions_repeat self v n :
  transitions self (triggered_status self v) (repeat v n) = [].
Proof.
  induction n as [|n IH]; [reflexivity|].
  cbn [repeat transitions]. rewrite String.eqb_refl, IH. reflexivity.
Qed.


Lemma feed_history self w vs :
  (List.length (beta_history self) <= 1000)%nat ->
  beta_history (monitor_after self w vs) =
  Py.slice_last 1000 (beta_history self ++ vs).
Proof.
  revert self w. induction vs as [|v vs IH]; intros self w H.
  - rewrite app_nil_r, slice_last_short by exact H. reflexivity.
  - rewrite monitor_after_cons, IH; rewrite update_beta_mon; cbn [beta_history].
    + rewrite slice_last_app, <- app_assoc. reflexivity.
    + rewrite slice_last_length. lia.
Qed.

End FeedFacts.

(** * Facts about [Py.min] and the correction factor *)

Lemma min_le_cap (cap q : float) :
  (cap <=? 1) = true -> (Py.min cap q <=? 1) = true.
Proof.
  intros Hc. unfold Py.min. destruct (q <? cap) eqn:E; [|exact Hc].
  apply leb_trans with cap; [apply ltb_leb, E | exact Hc].
Qed.

Lemma min_in_unit_interval (cap q : float) :
  in_unit_interval cap = true -> SFnonneg (Prim2SF q) = true ->
  in_unit_interval (Py.min cap q) = true.
Proof.
  intros Hc Hq. unfold Py.min. destruct (q <? cap) eqn:E; [|exact Hc].
  unfold in_unit_interval in *. apply andb_prop in Hc. destruct Hc as [_ Hc].
  apply andb_true_intro. split.
  - apply nonneg_zero_leb; [exact Hq | apply (ltb_not_nan _ _ E)].
  - apply leb_trans with cap; [apply ltb_leb, E | exact Hc].
Qed.

Lemma is_finite_Prim2SF (x : float) :
  is_finite x = true ->
  (exists s, Prim2SF x = S754_zero s) \/ (exists s m e, Prim2SF x = S754_finite s m e).
Proof.
  unfold is_finite, is_infinity. intros H.
  apply negb_true_iff, orb_false_iff in H. destruct H as [N I].
  apply not_nan_Prim2SF in N.
  rewrite FloatAxioms.eqb_spec, abs_spec in I.
  change (Prim2SF infinity) with (S754_infinity false) in I.
  destruct (Prim2SF x) as [s|s| |s m e]; eauto; try congruence; discriminate.
Qed.

Lemma infinity_leb_finite (x : float) :
  is_finite x = true -> (infinity <=? x) = false.
Proof.
  intros H. rewrite FloatAxioms.leb_spec.
  change (Prim2SF infinity) with (S754_infinity false).
  destruct (is_finite_Prim2SF x H) as [[s E] | (s & m & e & E)]; rewrite E; reflexivity.
Qed.

Lemma neg_infinity_leb_finite (x : float) :
  is_finite x = true -> (neg_infinity <=? x) = true.
Proof.
  intros H. rewrite FloatAxioms.leb_spec.
  change (Prim2SF neg_infinity) with (S754_infinity true).
  destruct (is_finite_Prim2SF x H) as [[s E] | (s & m & e & E)]; rewrite E; reflexivity.
Qed.

Lemma is_nan_leb (v x : float) : is_nan v = true -> (v <=? x) = false.
Proof.
  intros H. apply is_nan_Prim2SF in H. rewrite FloatAxioms.leb_spec, H. reflexivity.
Qed.

(** * The embedding on the demonstration scenario *)

Example scenario_severities :
  map (fun r => alert_status (mon r)) scenario_runs =
    ["NORMAL"; "ALERT"; "CRITICAL"; "EMERGENCY"; "NORMAL"].
Proof. reflexivity. Qed.

Example scenario_notifications :
  List.concat (map notifications scenario_runs) =
    [("ALERT", 0.04); ("CRITICAL", -0.06); ("EMERGENCY", -0.20); ("NORMAL", 0.31)].
Proof. reflexivity. Qed.

Example scenario_actions :
  map (fun r => map action (corrective_actions_history (corrector (world r))))
      scenario_runs =
    [ [];
      ["GENTLE_CORRECTION"];
      ["GENTLE_CORRECTION"; "STRONG_CORRECTION"];
      ["GENTLE_CORRECTION"; "STRONG_CORRECTION"; "EMERGENCY_RESET"];
      ["GENTLE_CORRECTION"; "STRONG_CORRECTION"; "EMERGENCY_RESET"] ].
Proof. reflexivity. Qed.

(** An exception that does not derive from [Exception] is not caught: it
    leaves [update_beta], and the callback registered after the one that
    raised it is not invoked. *)
Example base_exception_escapes :
  propagated (update_beta exiting_monitor 0.04 []) =
    Some {| Py.is_Exception := false; Py.exc_text := "exit" |} /\
  calls (update_beta exiting_monitor 0.04 []) =
    [ {| cb_index := 0; arg_status := "ALERT"; arg_beta := 0.04 |} ] /\
  world (update_beta exiting_monitor 0.04 []) = [].
Proof. repeat split. Qed.

(** * The claims *)

(** C1 (as the code has it).  A NaN sample is classified NORMAL whatever the
    stored severity, because every comparison with NaN is false: the previous
    severity is not retained and no fault is signalled.  With finite
    thresholds [+infinity] is classified NORMAL and [-infinity] EMERGENCY. *)
Theorem nonfinite_sample_is_classified {W : Type} (self : BetaMonitor W) (w : W) :
  (forall v, is_nan v = true ->
             alert_status (mon (update_beta self v w)) = "NORMAL") /\
  (is_finite (emergency_threshold self) = true ->
   is_finite (critical_threshold self) = true ->
   is_finite (alert_threshold self) = true ->
   alert_status (mon (update_beta self infinity w)) = "NORMAL" /\
   alert_status (mon (update_beta self neg_infinity w)) = "EMERGENCY").
Proof.
  split.
  - intros v Hv. rewrite update_beta_status. unfold triggered_status.
    rewrite !(is_nan_leb v) by exact Hv. reflexivity.
  - intros He Hc Ha. rewrite !update_beta_status. unfold triggered_status.
    rewrite !infinity_leb_finite, neg_infinity_leb_finite by assumption.
    split; reflexivity.
Qed.

Lemma nonfinite_sample_is_classified_witness :
  is_nan nan = true /\
  is_finite (emergency_threshold alerted_monitor) = true /\
  is_finite (critical_threshold alerted_monitor) = true /\
  is_finite (alert_threshold alerted_monitor) = true /\
  alert_status (mon (update_beta alerted_monitor nan tt)) = "NORMAL" /\
  alert_status (mon (update_beta alerted_monitor infinity tt)) = "NORMAL" /\
  alert_status (mon (update_beta alerted_monitor neg_infinity tt)) = "EMERGENCY".
Proof.
  do 4 (split; [reflexivity|]).
  destruct (nonfinite_sample_is_classified alerted_monitor tt) as [N I].
  split; [apply N; reflexivity | apply I; reflexivity].
Defined.

(** C1, counterexample.  The monitor is in status ALERT and receives NaN: the
    stored severity is replaced by NORMAL instead of being retained. *)
Lemma nan_sample_resets_severity :
  is_nan nan = true /\
  alert_status alerted_monitor = "ALERT" /\
  alert_status (mon (update_beta alerted_monitor nan tt)) = "NORMAL" /\
  alert_status (mon (update_beta alerted_monitor nan tt)) <> alert_status alerted_monitor.
Proof. repeat split; try reflexivity. discriminate. Qed.

(** C2 (as the code has it).  Whatever the status string, the factor
    [apply_corrective_action] returns is the one stored in the entry it
    appends; it never exceeds 1, and it lies in [[0, 1]] whenever the metric
    value is not above the reference (including a NaN value). *)
Theorem correction_factor_range (time_time : nat -> float) {M : Type}
    (beta_monitor : BetaMonitor M) (w : CorrectorWorld)
    (status : string) (current : float) :
  let r := apply_corrective_action time_time beta_monitor w status current in
  (exists entry,
      corrective_actions_history (corrector (fst r)) =
        corrective_actions_history (corrector w) ++ [entry] /\
      correction_factor entry = snd r) /\
  (snd r <=? 1) = true /\
  ((reference_beta beta_monitor <? current) = false ->
   in_unit_interval (snd r) = true).
Proof.
  unfold apply_corrective_action.
  destruct (String.eqb status "EMERGENCY"); [|destruct (String.eqb status "CRITICAL")];
    cbn [fst snd corrector corrective_actions_history emit];
    (split; [eexists; split; reflexivity|]);
    (split; [apply min_le_cap; reflexivity|]);
    intros H; apply min_in_unit_interval; try reflexivity;
    eapply sub_div_nonneg; try exact H; reflexivity.
Qed.

Lemma correction_factor_range_witness :
  (reference_beta plain_monitor <? 0.04) = false /\
  in_unit_interval
    (snd (apply_corrective_action frozen_clock plain_monitor
            (fresh_world idle_corrector) "ALERT" 0.04)) = true.
Proof.
  split; [reflexivity|].
  apply (correction_factor_range frozen_clock plain_monitor
           (fresh_world idle_corrector) "ALERT" 0.04).
  reflexivity.
Defined.

(** C2, counterexample.  Status ALERT with the value 1.0, above the reference
    0.31: the factor stored in the appended entry is negative. *)
Lemma correction_factor_below_zero :
  map correction_factor
      (corrective_actions_history (corrector (fst overshoot_correction))) =
    [snd overshoot_correction] /\
  (snd overshoot_correction <? 0) = true /\
  in_unit_interval (snd overshoot_correction) = false.
Proof. repeat split; reflexivity. Qed.






(** Either side of a threshold: for a sample that is not NaN, [v <= t] fails
    exactly when [t < v]. *)
Lemma leb_ltb_cases (v t : float) :
  is_nan v = false -> is_nan t = false ->
  ((v <=? t) = true /\ (t <? v) = false) \/ ((v <=? t) = false /\ (t <? v) = true).
Proof.
  intros Hv Ht. destruct (v <=? t) eqn:E.
  - left. split; [reflexivity | apply leb_not_ltb, E].
  - right. split; [reflexivity | apply leb_false_ltb; assumption].
Qed.

(** C5.  For a finite sample and thresholds ordered
    [emergency < critical < alert < reference], the status [update_beta]
    stores is the one the chain EMERGENCY / CRITICAL / ALERT / NORMAL of the
    specification assigns; each status corresponds to one band of values; a
    value under several thresholds gets the most severe status; and the
    status depends on nothing but the value and the three thresholds. *)
Theorem classification_bands {W : Type} (self : BetaMonitor W) (v : float) (w : W) :
  is_finite v = true ->
  (emergency_threshold self <? critical_threshold self) = true ->
  (critical_threshold self <? alert_threshold self) = true ->
  (alert_threshold self <? reference_beta self) = true ->
  let s := alert_status (mon (update_beta self v w)) in
  s = Spec.name (Spec.classify v (emergency_threshold self)
                               (critical_threshold self) (alert_threshold self)) /\
  (s = "EMERGENCY" <-> (v <=? emergency_threshold self) = true) /\
  (s = "CRITICAL" <->
     (emergency_threshold self <? v) = true /\ (v <=? critical_threshold self) = true) /\
  (s = "ALERT" <->
     (critical_threshold self <? v) = true /\ (v <=? alert_threshold self) = true) /\
  (s = "NORMAL" <-> (alert_threshold self <? v) = true) /\
  ((v <=? emergency_threshold self) = true ->
     (v <=? critical_threshold self) = true /\ (v <=? alert_threshold self) = true) /\
  ((v <=? critical_threshold self) = true -> (v <=? alert_threshold self) = true) /\
  (forall (self' : BetaMonitor W) (w' : W),
     emergency_threshold self' = emergency_threshold self ->
     critical_threshold self' = critical_threshold self ->
     alert_threshold self' = alert_threshold self ->
     alert_status (mon (update_beta self' v w')) = s).
Proof.
  intros Hv Hec Hca Har s. subst s.
  apply is_finite_not_nan in Hv.
  destruct (ltb_not_nan _ _ Hec) as [Ne Nc].
  destruct (ltb_not_nan _ _ Hca) as [_ Na].
  assert (T1 : (v <=? emergency_threshold self) = true ->
               (v <=? critical_threshold self) = true).
  { intros H. apply ltb_leb. eapply leb_ltb_trans; eassumption. }
  assert (T2 : (v <=? critical_threshold self) = true ->
               (v <=? alert_threshold self) = true).
  { intros H. apply ltb_leb. eapply leb_ltb_trans; eassumption. }
  rewrite update_beta_status. unfold triggered_status, Spec.classify.
  destruct (leb_ltb_cases v (emergency_threshold self) Hv Ne) as [[E1 E2] | [E1 E2]];
  destruct (leb_ltb_cases v (critical_threshold self) Hv Nc) as [[C1 C2] | [C1 C2]];
  destruct (leb_ltb_cases v (alert_threshold self) Hv Na) as [[A1 A2] | [A1 A2]];
    rewrite ?E1, ?E2, ?C1, ?C2, ?A1, ?A2 in *;
    try (specialize (T1 eq_refl)); try (specialize (T2 eq_refl)); try discriminate;
    cbn [Spec.name];
    (repeat split; try reflexivity; try discriminate; try tauto;
     try (intros [? ?]; discriminate);
     try (intros self' w' He Hc Ha; rewrite update_beta_status;
          unfold triggered_status; rewrite He, Hc, Ha, ?E1, ?C1, ?A1; reflexivity)).
Qed.

Lemma classification_bands_witness :
  is_finite 0.04 = true /\
  (emergency_threshold plain_monitor <? critical_threshold plain_monitor) = true /\
  (critical_threshold plain_monitor <? alert_threshold plain_monitor) = true /\
  (alert_threshold plain_monitor <? reference_beta plain_monitor) = true /\
  alert_status (mon (update_beta plain_monitor 0.04 tt)) = "ALERT".
Proof.
  do 4 (split; [reflexivity|]).
  exact (proj1 (classification_bands plain_monitor 0.04 tt
                  eq_refl eq_refl eq_refl eq_refl)).
Defined.




(** C7.  Starting from an empty history, the history never holds more than
    1000 samples, and once [1000 + k] samples with [k > 0] have been fed it
    holds exactly the last 1000 of them in insertion order: the [k] oldest
    are gone. *)
Theorem history_keeps_last_thousand {W : Type} (self : BetaMonitor W) (w : W)
    (vs : list float) :
  beta_history self = [] ->
  (List.length (beta_history (monitor_after self w vs)) <= 1000)%nat /\
  (forall k : nat, (0 < k)%nat -> List.length vs = (1000 + k)%nat ->
     beta_history (monitor_after self w vs) = skipn k vs /\
     List.length (beta_history (monitor_after self w vs)) = 1000%nat).
Proof.
  intros H0.
  assert (H : beta_history (monitor_after self w vs) = Py.slice_last 1000 vs).
  { rewrite feed_history by (rewrite H0; cbn [List.length]; lia).
    rewrite H0. reflexivity. }
  rewrite H. split.
  - rewrite slice_last_length. lia.
  - intros k Hk L. split.
    + unfold Py.slice_last. rewrite L. f_equal. lia.
    + rewrite slice_last_length. lia.
Qed.

Lemma history_keeps_last_thousand_witness :
  beta_history plain_monitor = [] /\
  (0 < 1)%nat /\
  List.length long_run = (1000 + 1)%nat /\
  beta_history (monitor_after plain_monitor tt long_run) = repeat 0.31 1000.
Proof.
  split; [reflexivity|]. split; [lia|]. split; [reflexivity|].
  exact (proj1 (proj2 (history_keeps_last_thousand plain_monitor tt long_run eq_refl)
                  1%nat (le_n 1) eq_refl)).
Defined.

(** C8.  The parameters are a function of the last entry of the history
    alone; for a last entry with action EMERGENCY_RESET and factor [f] they
    are [0.5 * f], [0.1 * f], [0.2 * f] and [1 + f]; and an EMERGENCY
    correction at the value -0.20 under the reference 0.31 stores the factor
    1.0, after which the parameters are 0.5, 0.1, 0.2 and 2.0. *)
Theorem emergency_reset_parameters (time_time : nat -> float)
    (self : QDTSystemCorrector) (earlier : list CorrectiveAction)
    (last_correction : CorrectiveAction) :
  corrective_actions_history self = earlier ++ [last_correction] ->
  (forall other : QDTSystemCorrector,
     last (corrective_actions_history other) last_correction = last_correction ->
     corrective_actions_history other <> [] ->
     get_correction_parameters other = get_correction_parameters self) /\
  (action last_correction = "EMERGENCY_RESET" ->
   get_correction_parameters self =
     {| void_energy_boost := 0.5 * correction_factor last_correction;
        lambda_adjustment := 0.1 * correction_factor last_correction;
        gamma_increase := 0.2 * correction_factor last_correction;
        stabilization_factor := 1 + correction_factor last_correction |}) /\
  (forall (M : Type) (beta_monitor : BetaMonitor M) (w : CorrectorWorld),
     reference_beta beta_monitor = 0.31 ->
     let r := apply_corrective_action time_time beta_monitor w
                "EMERGENCY" (-0.20) in
     snd r = 1.0 /\
     get_correction_parameters (corrector (fst r)) =
       {| void_energy_boost := 0.5;
          lambda_adjustment := 0.1;
          gamma_increase := 0.2;
          stabilization_factor := 2.0 |}).
Proof.
  intros H.
  assert (G : forall c : QDTSystemCorrector,
             corrective_actions_history c <> [] ->
             get_correction_parameters c =
             get_correction_parameters
               {| constants := constants c;
                  corrective_actions_history :=
                    [last (corrective_actions_history c) last_correction] |}).
  { intros c Hc. unfold get_correction_parameters.
    cbn [corrective_actions_history last].
    destruct (corrective_actions_history c) as [|a l]; [congruence|].
    rewrite last_cons. reflexivity. }
  split; [|split].
  - intros other Hl Hne. rewrite (G other Hne), (G self), Hl, H, last_last.
    + reflexivity.
    + rewrite H. destruct earlier; discriminate.
  - intros Ha. rewrite (G self), H, last_last.
    + unfold get_correction_parameters. cbn [corrective_actions_history last].
      rewrite Ha. reflexivity.
    + rewrite H. destruct earlier; discriminate.
  - intros M beta_monitor w Hr r. subst r. unfold apply_corrective_action.
    rewrite Hr. cbn [String.eqb Ascii.eqb Bool.eqb fst snd]. split; [reflexivity|].
    rewrite G; cbn [corrector corrective_actions_history emit].
    + rewrite last_last. reflexivity.
    + destruct (corrective_actions_history (corrector w)); discriminate.
Qed.

Lemma emergency_reset_parameters_witness :
  corrective_actions_history reset_corrector = [] ++ [reset_entry] /\
  action reset_entry = "EMERGENCY_RESET" /\
  reference_beta plain_monitor = 0.31 /\
  get_correction_parameters reset_corrector =
    {| void_energy_boost := 0.5; lambda_adjustment := 0.1;
       gamma_increase := 0.2; stabilization_factor := 2.0 |} /\
  get_correction_parameters
    (corrector (fst (apply_corrective_action frozen_clock plain_monitor
                       (fresh_world idle_corrector) "EMERGENCY" (-0.20)))) =
    {| void_energy_boost := 0.5; lambda_adjustment := 0.1;
       gamma_increase := 0.2; stabilization_factor := 2.0 |}.
Proof.
  do 3 (split; [reflexivity|]).
  destruct (emergency_reset_parameters frozen_clock reset_corrector [] reset_entry
              eq_refl) as (_ & P & S).
  split.
  - exact (P eq_refl).
  - exact (proj2 (S unit plain_monitor (fresh_world idle_corrector) eq_refl)).
Defined.

(** C9.  A corrector that has recorded no action, in particular the one
    [__init__] builds, reports the neutral parameters 0, 0, 0 and 1.0. *)
Theorem neutral_parameters_before_any_action (time_time : nat -> float)
    (beta_monitor : BetaMonitor CorrectorWorld) (qdt_constants : QDTConstants) :
  corrective_actions_history
    (fst (QDTSystemCorrector_init time_time beta_monitor qdt_constants)) = [] /\
  get_correction_parameters
    (fst (QDTSystemCorrector_init time_time beta_monitor qdt_constants)) =
    {| void_energy_boost := 0.0; lambda_adjustment := 0.0;
       gamma_increase := 0.0; stabilization_factor := 1.0 |} /\
  get_correction_parameters
    {| constants := qdt_constants; corrective_actions_history := [] |} =
    {| void_energy_boost := 0.0; lambda_adjustment := 0.0;
       gamma_increase := 0.0; stabilization_factor := 1.0 |}.
Proof. repeat split. Qed.

(** C10.  Whatever the float [v], NaN and the infinities included, a call of
    [update_beta] stores it as the current value and as the newest element of
    the history, behind the last 999 elements of the previous history; the
    history holds the bare value. *)
Theorem every_sample_is_recorded {W : Type} (self : BetaMonitor W) (v : float) (w : W) :
  current_beta (mon (update_beta self v w)) = v /\
  beta_history (mon (update_beta self v w)) =
    Py.slice_last 999 (beta_history self) ++ [v] /\
  (forall d, last (beta_history (mon (update_beta self v w))) d = v) /\
  current_beta (mon (update_beta self nan w)) = nan /\
  current_beta (mon (update_beta self infinity w)) = infinity /\
  current_beta (mon (update_beta self neg_infinity w)) = neg_infinity.
Proof.
  rewrite !update_beta_mon. cbn [current_beta beta_history].
  change 1000%nat with (S 999). rewrite slice_last_snoc.
  repeat split. intros d. apply last_last.
Qed.

(** * Further properties of the monitor *)

Section MonitorMore.

Context {W : Type}.
Implicit Types (self : BetaMonitor W) (w : W) (v : float).




Lemma triggered_status_cases self v :
  triggered_status self v = "EMERGENCY" \/ triggered_status self v = "CRITICAL" \/
  triggered_status self v = "ALERT" \/ triggered_status self v = "NORMAL".
Proof.
  unfold triggered_status.
  destruct (v <=? emergency_threshold self); auto.
  destruct (v <=? critical_threshold self); auto.
  destruct (v <=? alert_threshold self); auto.
Qed.

(** X2.  After any update the status is one of the four names and the colour
    is the one of that status; the four colours are distinct, so the colour
    tells the status.  On a monitor whose status is any other string the
    colour is green. *)
Theorem status_color_follows_status self v w :
  In (alert_status (mon (update_beta self v w)),
      get_status_color (mon (update_beta self v w)))
     [("EMERGENCY", "#FF0000"); ("CRITICAL", "#FF7700");
      ("ALERT", "#FFFF00"); ("NORMAL", "#00FF00")] /\
  (forall self' v' w',
     get_status_color (mon (update_beta self' v' w')) =
       get_status_color (mon (update_beta self v w)) ->
     alert_status (mon (update_beta self' v' w')) =
       alert_status (mon (update_beta self v w))) /\
  (~ In (alert_status self) ["EMERGENCY"; "CRITICAL"; "ALERT"] ->
   get_status_color self = "#00FF00").
Proof.
  split; [|split].
  - unfold get_status_color. rewrite update_beta_status.
    destruct (triggered_status_cases self v) as [E | [E | [E | E]]]; rewrite E;
      cbn; auto.
  - intros self' v' w'. unfold get_status_color. rewrite !update_beta_status.
    destruct (triggered_status_cases self v) as [E | [E | [E | E]]];
      destruct (triggered_status_cases self' v') as [E' | [E' | [E' | E']]];
      rewrite E, E'; cbn; intros H; try reflexivity; discriminate H.
  - intros H. unfold get_status_color.
    destruct (String.eqb_spec (alert_status self) "EMERGENCY") as [E | _];
      [exfalso; apply H; rewrite E; cbn; auto|].
    destruct (String.eqb_spec (alert_status self) "CRITICAL") as [E | _];
      [exfalso; apply H; rewrite E; cbn; auto|].
    destruct (String.eqb_spec (alert_status self) "ALERT") as [E | _];
      [exfalso; apply H; rewrite E; cbn; auto|].
    reflexivity.
Qed.

(** X3.  A lower value is never classified less severely than a higher one,
    whatever the thresholds. *)
Theorem lower_value_at_least_as_severe self v1 v2 w1 w2 :
  (v1 <=? v2) = true ->
  (severity_rank (alert_status (mon (update_beta self v2 w2))) <=
   severity_rank (alert_status (mon (update_beta self v1 w1))))%nat.
Proof.
  intros H. rewrite !update_beta_status. unfold triggered_status.
  assert (T : forall t, (v2 <=? t) = true -> (v1 <=? t) = true)
    by (intros t; apply leb_trans, H).
  pose proof (T (emergency_threshold self)) as Te.
  pose proof (T (critical_threshold self)) as Tc.
  pose proof (T (alert_threshold self)) as Ta.
  destruct (v2 <=? emergency_threshold self); [rewrite Te by reflexivity|];
    destruct (v1 <=? emergency_threshold self);
    destruct (v2 <=? critical_threshold self); try (rewrite Tc by reflexivity);
    destruct (v1 <=? critical_threshold self);
    destruct (v2 <=? alert_threshold self); try (rewrite Ta by reflexivity);
    destruct (v1 <=? alert_threshold self);
    try (specialize (Tc eq_refl)); try (specialize (Ta eq_refl));
    try discriminate; vm_compute; lia.
Qed.

Lemma world_after_feed_cons self w v (vs : list float) :
  world_after_feed self w (v :: vs) =
  world_after_feed (mon (update_beta self v w)) (world (update_beta self v w)) vs.
Proof. unfold world_after_feed. cbn [feed map]. apply last_cons. Qed.

Lemma monitor_after_snoc self w (vs : list float) v :
  monitor_after self w (vs ++ [v]) =
  mon (update_beta (monitor_after self w vs) v (world_after_feed self w vs)).
Proof.
  revert self w. induction vs as [|x vs IH]; intros self w.
  - reflexivity.
  - cbn [app]. rewrite !monitor_after_cons, world_after_feed_cons. apply IH.
Qed.

Lemma feed_config self w (vs : list float) :
  reference_beta (monitor_after self w vs) = reference_beta self /\
  alert_threshold (monitor_after self w vs) = alert_threshold self /\
  critical_threshold (monitor_after self w vs) = critical_threshold self /\
  emergency_threshold (monitor_after self w vs) = emergency_threshold self /\
  alert_callbacks (monitor_after self w vs) = alert_callbacks self /\
  monitor_active (monitor_after self w vs) = monitor_active self.
Proof.
  revert self w. induction vs as [|x vs IH]; intros self w.
  - repeat split; reflexivity.
  - rewrite monitor_after_cons.
    destruct (IH (mon (update_beta self x w)) (world (update_beta self x w)))
      as (R & A & C & E & K & M).
    rewrite R, A, C, E, K, M, update_beta_mon. repeat split; reflexivity.
Qed.

(** X4.  The monitor keeps no memory of earlier samples in its status: after
    any sequence of samples the status is the one of the last sample alone
    and the current value is that sample, while the reference, the
    thresholds, the callbacks and the activity flag are never touched. *)
Theorem status_follows_last_sample self w (vs : list float) v :
  alert_status (monitor_after self w (vs ++ [v])) = triggered_status self v /\
  current_beta (monitor_after self w (vs ++ [v])) = v /\
  reference_beta (monitor_after self w (vs ++ [v])) = reference_beta self /\
  alert_threshold (monitor_after self w (vs ++ [v])) = alert_threshold self /\
  critical_threshold (monitor_after self w (vs ++ [v])) = critical_threshold self /\
  emergency_threshold (monitor_after self w (vs ++ [v])) = emergency_threshold self /\
  alert_callbacks (monitor_after self w (vs ++ [v])) = alert_callbacks self /\
  monitor_active (monitor_after self w (vs ++ [v])) = monitor_active self.
Proof.
  split; [|split; [|apply feed_config]].
  - rewrite monitor_after_snoc, update_beta_status. unfold triggered_status.
    destruct (feed_config self w vs) as (_ & A & C & E & _).
    rewrite A, C, E. reflexivity.
  - rewrite monitor_after_snoc, update_beta_mon. reflexivity.
Qed.

(** X16.  The thresholds are not checked against each other, and the chain of
    comparisons hides a status whose threshold does not exceed a more severe
    one: CRITICAL is never assigned when the critical threshold is not above
    the emergency threshold, nor ALERT when the alert threshold is not above
    the critical or the emergency threshold. *)
Theorem misordered_thresholds_hide_statuses self v w :
  ((critical_threshold self <=? emergency_threshold self) = true ->
   alert_status (mon (update_beta self v w)) <> "CRITICAL") /\
  ((alert_threshold self <=? critical_threshold self) = true \/
   (alert_threshold self <=? emergency_threshold self) = true ->
   alert_status (mon (update_beta self v w)) <> "ALERT").
Proof.
  rewrite update_beta_status. unfold triggered_status. split.
  - intros H.
    destruct (v <=? emergency_threshold self) eqn:E; [discriminate|].
    destruct (v <=? critical_threshold self) eqn:C.
    + rewrite (leb_trans _ _ _ C H) in E. discriminate E.
    + destruct (v <=? alert_threshold self); discriminate.
  - intros H.
    destruct (v <=? emergency_threshold self) eqn:E; [discriminate|].
    destruct (v <=? critical_threshold self) eqn:C; [discriminate|].
    destruct (v <=? alert_threshold self) eqn:A; [|discriminate].
    destruct H as [H | H].
    + rewrite (leb_trans _ _ _ A H) in C. discriminate C.
    + rewrite (leb_trans _ _ _ A H) in E. discriminate E.
Qed.

End MonitorMore.

(** * Further properties of the corrector *)

Lemma min_not_nan (cap q : float) : is_nan cap = false -> is_nan (Py.min cap q) = false.
Proof.
  intros H. unfold Py.min. destruct (q <? cap) eqn:E; [|exact H].
  apply (ltb_not_nan _ _ E).
Qed.

Lemma min_le_first (cap q : float) : (cap <=? cap) = true -> (Py.min cap q <=? cap) = true.
Proof.
  intros H. unfold Py.min. destruct (q <? cap) eqn:E; [|exact H].
  apply ltb_leb, E.
Qed.

Lemma min_nan_second (cap q : float) : is_nan q = true -> Py.min cap q = cap.
Proof.
  intros H. unfold Py.min. apply is_nan_Prim2SF in H.
  rewrite FloatAxioms.ltb_spec, H. reflexivity.
Qed.

Lemma sub_div_nan (x v d : float) : is_nan v = true -> is_nan ((x - v) / d) = true.
Proof.
  intros H. apply is_nan_Prim2SF in H. apply is_nan_Prim2SF.
  rewrite div_spec, sub_spec, H. unfold SF64div, SF64sub, SFsub, SFdiv.
  destruct (Prim2SF x); reflexivity.
Qed.

(** The factor lies in [[0, 1]] when the value is not above the reference. *)
Lemma factor_unit_when_not_above (time_time : nat -> float) {M : Type}
    (beta_monitor : BetaMonitor M) (w : CorrectorWorld) (status : string)
    (current : float) :
  (reference_beta beta_monitor <? current) = false ->
  in_unit_interval
    (snd (apply_corrective_action time_time beta_monitor w status current)) = true.
Proof.
  intros H. unfold apply_corrective_action.
  destruct (String.eqb status "EMERGENCY"); [|destruct (String.eqb status "CRITICAL")];
    cbn [snd]; apply min_in_unit_interval; try reflexivity;
    eapply sub_div_nonneg; try exact H; reflexivity.
Qed.

Section CorrectorMore.

Variable time_time : nat -> float.
Context {M : Type}.
Implicit Types (beta_monitor : BetaMonitor M) (w : CorrectorWorld).

(** X5.  The factor [apply_corrective_action] computes is never NaN and never
    exceeds the cap of its branch: 1.0 for EMERGENCY, 0.7 for CRITICAL, 0.3
    for any other status; a NaN value gets exactly the cap. *)
Theorem factor_is_capped beta_monitor w (status : string) (current : float) :
  let f := snd (apply_corrective_action time_time beta_monitor w status current) in
  let cap := if String.eqb status "EMERGENCY" then 1.0
             else if String.eqb status "CRITICAL" then 0.7 else 0.3 in
  is_nan f = false /\ (f <=? cap) = true /\ (is_nan current = true -> f = cap).
Proof.
  unfold apply_corrective_action.
  destruct (String.eqb status "EMERGENCY"); [|destruct (String.eqb status "CRITICAL")];
    cbn [snd]; (split; [apply min_not_nan; reflexivity|]);
    (split; [apply min_le_first; reflexivity|]);
    intros H; apply min_nan_second, sub_div_nan, H.
Qed.

(** What [alert_handler] does to the history of actions. *)
Lemma handler_returns beta_monitor (status : string) (v : float) w :
  exists w', alert_handler time_time beta_monitor status v w = Py.Returned w'.
Proof.
  unfold alert_handler.
  destruct (existsb (String.eqb status) ["ALERT"; "CRITICAL"; "EMERGENCY"]); eauto.
Qed.

Lemma handler_history beta_monitor (status : string) (v : float) w :
  corrective_actions_history
    (corrector (Py.world_after (alert_handler time_time beta_monitor status v w))) =
  corrective_actions_history (corrector w) ++
  (if is_alerting (status, v)
   then [{| timestamp := time_time (clock_reads w);
            ca_alert_status := status;
            beta_value := v;
            action := if String.eqb status "EMERGENCY" then "EMERGENCY_RESET"
                      else if String.eqb status "CRITICAL" then "STRONG_CORRECTION"
                      else "GENTLE_CORRECTION";
            correction_factor :=
              snd (apply_corrective_action time_time beta_monitor w status v) |}]
   else []).
Proof.
  unfold alert_handler, is_alerting. cbn [fst].
  destruct (existsb (String.eqb status) ["ALERT"; "CRITICAL"; "EMERGENCY"]).
  - unfold apply_corrective_action.
    destruct (String.eqb status "EMERGENCY"); [|destruct (String.eqb status "CRITICAL")];
      reflexivity.
  - cbn. rewrite app_nil_r. reflexivity.
Qed.

(** X6.  The handler the corrector registers never raises.  For a status
    other than ALERT, CRITICAL and EMERGENCY (NORMAL in particular) it
    records nothing: the corrector and the clock are left as they were.  For
    one of the three it appends exactly one entry, for that status and value
    and with the matching action, after all earlier entries. *)
Theorem handler_records_alerts_only beta_monitor (status : string) (v : float) w :
  exists w',
    alert_handler time_time beta_monitor status v w = Py.Returned w' /\
    (is_alerting (status, v) = false ->
     corrector w' = corrector w /\ clock_reads w' = clock_reads w) /\
    (is_alerting (status, v) = true ->
     exists entry,
       corrective_actions_history (corrector w') =
         corrective_actions_history (corrector w) ++ [entry] /\
       action_trigger entry = (status, v) /\
       timestamp entry = time_time (clock_reads w) /\
       clock_reads w' = S (clock_reads w) /\
       action entry =
         (if String.eqb status "EMERGENCY" then "EMERGENCY_RESET"
          else if String.eqb status "CRITICAL" then "STRONG_CORRECTION"
          else "GENTLE_CORRECTION")).
Proof.
  unfold alert_handler, is_alerting. cbn [fst].
  destruct (existsb (String.eqb status) ["ALERT"; "CRITICAL"; "EMERGENCY"]).
  - eexists. split; [reflexivity|]. split; [discriminate|]. intros _.
    unfold apply_corrective_action.
    destruct (String.eqb status "EMERGENCY"); [|destruct (String.eqb status "CRITICAL")];
      cbn [fst corrector corrective_actions_history clock_reads emit];
      eexists; repeat split.
  - eexists. split; [reflexivity|]. split; [|discriminate]. intros _.
    split; reflexivity.
Qed.

End CorrectorMore.

(** * The monitor and the corrector together *)

Lemma update_beta_world {W : Type} (self : BetaMonitor W) (v : float) (w : W) :
  faults_are_Exceptions (alert_callbacks self) ->
  world (update_beta self v w) =
    if String.eqb (alert_status self) (triggered_status self v) then w
    else fold_left (fun w' callback =>
                      Py.world_after (callback (triggered_status self v) v w'))
                   (alert_callbacks self) w.
Proof.
  intros H. unfold update_beta. cbv beta zeta.
  match goal with |- context [Nat.ltb 1000 ?n] => destruct (Nat.ltb 1000 n) end;
    match goal with |- context [negb (String.eqb ?a ?b)] =>
      change (String.eqb a b)
        with (String.eqb (alert_status self) (triggered_status self v));
      destruct (String.eqb (alert_status self) (triggered_status self v))
    end; cbn [negb]; try reflexivity;
    match goal with |- context [_notify_callbacks ?m w] =>
      destruct (notify_isolates m w H) as (_ & _ & Wd); rewrite Wd
    end; reflexivity.
Qed.

Lemma not_normal_under_threshold {W : Type} (self : BetaMonitor W) (v : float) :
  triggered_status self v <> "NORMAL" ->
  (v <=? emergency_threshold self) = true \/
  (v <=? critical_threshold self) = true \/
  (v <=? alert_threshold self) = true.
Proof.
  unfold triggered_status.
  destruct (v <=? emergency_threshold self); auto.
  destruct (v <=? critical_threshold self); auto.
  destruct (v <=? alert_threshold self); auto.
Qed.

Lemma is_alerting_triggered {W : Type} (self : BetaMonitor W) (v : float) :
  is_alerting (triggered_status self v, v) = true ->
  triggered_status self v <> "NORMAL".
Proof. intros H E. rewrite E in H. discriminate H. Qed.

Section Together.

Variable time_time : nat -> float.
Context {M : Type}.
Variable beta_monitor : BetaMonitor M.

Lemma handler_faults :
  faults_are_Exceptions [alert_handler time_time beta_monitor].
Proof.
  constructor; [|constructor]. intros s b w e w' E.
  destruct (handler_returns time_time beta_monitor s b w) as [w1 R].
  rewrite R in E. discriminate E.
Qed.

Lemma handled_world (self : BetaMonitor CorrectorWorld) (v : float) (w : CorrectorWorld) :
  alert_callbacks self = [alert_handler time_time beta_monitor] ->
  world (update_beta self v w) =
    if String.eqb (alert_status self) (triggered_status self v) then w
    else Py.world_after
           (alert_handler time_time beta_monitor (triggered_status self v) v w).
Proof.
  intros H. rewrite update_beta_world by (rewrite H; apply handler_faults).
  rewrite H. reflexivity.
Qed.

(** X7.  With the corrector's handler as the only callback, the actions
    recorded along any sequence of samples are, in order, the transitions into
    ALERT, CRITICAL or EMERGENCY, each with the status and the value of its
    transition; a transition to NORMAL and a sample that keeps the status
    record nothing. *)
Theorem actions_follow_alerting_transitions (self : BetaMonitor CorrectorWorld)
    (w : CorrectorWorld) (vs : list float) :
  alert_callbacks self = [alert_handler time_time beta_monitor] ->
  map action_trigger
      (corrective_actions_history (corrector (world_after_feed self w vs))) =
  map action_trigger (corrective_actions_history (corrector w)) ++
  filter is_alerting (transitions self (alert_status self) vs).
Proof.
  revert self w. induction vs as [|v vs IH]; intros self w H.
  - cbn. rewrite app_nil_r. reflexivity.
  - rewrite world_after_feed_cons, IH by (rewrite update_beta_callbacks; exact H).
    cbn [transitions]. rewrite filter_app, update_beta_status, handled_world by exact H.
    rewrite (transitions_ext (mon (update_beta self v w)) self)
      by (intros v'; apply update_beta_triggered).
    rewrite app_assoc. f_equal.
    destruct (String.eqb (alert_status self) (triggered_status self v)).
    + cbn. rewrite app_nil_r. reflexivity.
    + rewrite handler_history, map_app. f_equal. cbn [filter].
      destruct (is_alerting (triggered_status self v, v)); reflexivity.
Qed.

(** X8.  With the corrector's handler as the only callback and no threshold
    above the reference the handler reads, every factor recorded along any
    sequence of samples lies in [[0, 1]]. *)
Theorem handled_factors_in_unit_interval (self : BetaMonitor CorrectorWorld)
    (w : CorrectorWorld) (vs : list float) :
  alert_callbacks self = [alert_handler time_time beta_monitor] ->
  (emergency_threshold self <=? reference_beta beta_monitor) = true ->
  (critical_threshold self <=? reference_beta beta_monitor) = true ->
  (alert_threshold self <=? reference_beta beta_monitor) = true ->
  Forall (fun a => in_unit_interval (correction_factor a) = true)
         (corrective_actions_history (corrector w)) ->
  Forall (fun a => in_unit_interval (correction_factor a) = true)
         (corrective_actions_history (corrector (world_after_feed self w vs))).
Proof.
  revert self w. induction vs as [|v vs IH]; intros self w H He Hc Ha Hw.
  - exact Hw.
  - rewrite world_after_feed_cons. apply IH.
    + rewrite update_beta_callbacks. exact H.
    + rewrite update_beta_mon. exact He.
    + rewrite update_beta_mon. exact Hc.
    + rewrite update_beta_mon. exact Ha.
    + rewrite handled_world by exact H.
      destruct (String.eqb (alert_status self) (triggered_status self v)); [exact Hw|].
      rewrite handler_history. apply Forall_app. split; [exact Hw|].
      destruct (is_alerting (triggered_status self v, v)) eqn:A; [|constructor].
      repeat constructor. cbn [correction_factor].
      apply factor_unit_when_not_above, leb_not_ltb.
      destruct (not_normal_under_threshold self v (is_alerting_triggered self v A))
        as [L | [L | L]]; eapply leb_trans; eassumption.
Qed.

End Together.

(** * Signs of products *)

(** A binary64 value that is zero, a positive number or [+infinity]. *)
Lemma zero_leb_shape (x : spec_float) :
  SFleb (S754_zero false) x = true <->
  (exists s, x = S754_zero s) \/ x = S754_infinity false \/
  (exists m e, x = S754_finite false m e).
Proof.
  split.
  - destruct x as [s|[]| |[] m e]; try discriminate; eauto.
  - intros [[s ->] | [-> | (m & e & ->)]]; reflexivity.
Qed.

Lemma shr_1_nonneg (mrs : shr_record) :
  (0 <= shr_m mrs)%Z -> (0 <= shr_m (shr_1 mrs))%Z.
Proof.
  destruct mrs as [m r s]. cbn [shr_m shr_1].
  destruct m as [|[p|p|]|[p|p|]]; cbn [shr_m]; lia.
Qed.

Lemma iter_shr_1_nonneg (p : positive) (mrs : shr_record) :
  (0 <= shr_m mrs)%Z -> (0 <= shr_m (SpecFloat.iter_pos shr_1 p mrs))%Z.
Proof.
  revert mrs. induction p as [p IH|p IH|]; intros mrs H; cbn [SpecFloat.iter_pos].
  - apply IH, IH, shr_1_nonneg, H.
  - apply IH, IH, H.
  - apply shr_1_nonneg, H.
Qed.

Lemma shr_fexp_nonneg (m e : Z) (l : location) :
  (0 <= m)%Z -> (0 <= shr_m (fst (shr_fexp prec emax m e l)))%Z.
Proof.
  intros H. unfold shr_fexp, shr.
  assert (H0 : (0 <= shr_m (shr_record_of_loc m l))%Z)
    by (destruct l as [|[]]; exact H).
  destruct (fexp prec emax (Zdigits2 m + e) - e)%Z; cbn [fst]; try exact H0.
  apply iter_shr_1_nonneg, H0.
Qed.

Lemma round_nearest_even_nonneg (m : Z) (l : location) :
  (0 <= m)%Z -> (0 <= round_nearest_even m l)%Z.
Proof.
  intros H. unfold round_nearest_even.
  destruct l as [|[]]; try destruct (Z.even m); lia.
Qed.

Lemma binary_round_aux_zero_leb (mx ex : Z) (lx : location) :
  (0 <= mx)%Z ->
  SFleb (S754_zero false) (binary_round_aux prec emax false mx ex lx) = true.
Proof.
  intros H. unfold binary_round_aux.
  pose proof (shr_fexp_nonneg mx ex lx H) as H1.
  destruct (shr_fexp prec emax mx ex lx) as [mrs' e']. cbn [fst] in H1.
  pose proof (shr_fexp_nonneg _ e' loc_Exact
                (round_nearest_even_nonneg _ (loc_of_shr_record mrs') H1)) as H2.
  destruct (shr_fexp prec emax _ e' loc_Exact) as [mrs'' e'']. cbn [fst] in H2.
  destruct (shr_m mrs''); try lia; try reflexivity.
  destruct (Z.leb e'' (emax - prec)); reflexivity.
Qed.

Lemma mul_zero_leb (c f : float) (m : positive) (e : Z) :
  Prim2SF c = S754_finite false m e ->
  (0 <=? f) = true -> (0 <=? c * f) = true.
Proof.
  intros Hc. rewrite !FloatAxioms.leb_spec, mul_spec, Hc.
  change (Prim2SF 0) with (S754_zero false). intros Hf.
  apply zero_leb_shape in Hf.
  destruct Hf as [[s ->] | [-> | (mf & ef & ->)]]; try reflexivity.
  unfold SF64mul, SFmul. cbn [xorb]. apply binary_round_aux_zero_leb. lia.
Qed.

(** X9.  When the factor of the last recorded action is not negative, none of
    the three adjustments [get_correction_parameters] derives from it is
    negative (or NaN), whatever the action. *)
Theorem adjustments_not_negative (self : QDTSystemCorrector)
    (earlier : list CorrectiveAction) (last_correction : CorrectiveAction) :
  corrective_actions_history self = earlier ++ [last_correction] ->
  (0 <=? correction_factor last_correction) = true ->
  (0 <=? void_energy_boost (get_correction_parameters self)) = true /\
  (0 <=? lambda_adjustment (get_correction_parameters self)) = true /\
  (0 <=? gamma_increase (get_correction_parameters self)) = true.
Proof.
  intros H Hf. unfold get_correction_parameters. rewrite H.
  destruct (earlier ++ [last_correction]) as [|a l] eqn:E;
    [destruct earlier; discriminate|].
  rewrite <- (last_cons l a last_correction), <- E, last_last.
  destruct (String.eqb (action last_correction) "EMERGENCY_RESET");
    [|destruct (String.eqb (action last_correction) "STRONG_CORRECTION")];
    cbn [void_energy_boost lambda_adjustment gamma_increase];
    repeat split; eapply mul_zero_leb; try exact Hf; reflexivity.
Qed.

(** * The monitoring loop *)

Lemma abs_opp (t : float) : abs (- t) = abs t.
Proof.
  apply Prim2SF_inj. rewrite !abs_spec, opp_spec.
  destruct (Prim2SF t); reflexivity.
Qed.

Section LoopFacts.

Context {W : Type}.
Variables np_exp np_sin : float -> float.
Variable time_sleep : float -> option Py.exc.
Implicit Types (self : BetaMonitor W) (w : W) (st : LoopState W).

Lemma calculate_raises self (system_state : SystemState) (tf : float) (e : Py.exc) :
  calculate_effective_beta np_exp np_sin self system_state tf = Raises e -> e = ZeroDivisionError.
Proof.
  unfold calculate_effective_beta, float_div.
  destruct (dict_get system_state "filament_energy" 0.5 =? 0).
  - intros H. injection H as <-. reflexivity.
  - destruct (0.1 <? abs (dict_get system_state "temperature" 0)); discriminate.
Qed.

Lemma calculate_zero_filament self (system_state : SystemState) (tf : float) :
  calculate_effective_beta np_exp np_sin self system_state tf = Raises ZeroDivisionError <->
  (dict_get system_state "filament_energy" 0.5 =? 0) = true.
Proof.
  unfold calculate_effective_beta, float_div.
  destruct (dict_get system_state "filament_energy" 0.5 =? 0).
  - split; reflexivity.
  - destruct (0.1 <? abs (dict_get system_state "temperature" 0));
      split; discriminate.
Qed.

(** X10.  [calculate_effective_beta] raises exactly when the filament energy
    of the state is a zero (of either sign), and what it raises is
    [ZeroDivisionError]; a state without the key ['filament_energy'] never
    makes it raise. *)
Theorem effective_beta_raises_on_zero_filament self (system_state : SystemState)
    (tf : float) :
  (calculate_effective_beta np_exp np_sin self system_state tf = Raises ZeroDivisionError <->
   (dict_get system_state "filament_energy" 0.5 =? 0) = true) /\
  (forall e, calculate_effective_beta np_exp np_sin self system_state tf = Raises e -> e = ZeroDivisionError) /\
  (system_state "filament_energy" = None ->
   exists b, calculate_effective_beta np_exp np_sin self system_state tf = Value b).
Proof.
  split; [apply calculate_zero_filament|]. split; [apply calculate_raises|].
  intros H. unfold calculate_effective_beta, float_div.
  replace (dict_get system_state "filament_energy" 0.5) with 0.5
    by (unfold dict_get; rewrite H; reflexivity).
  change (0.5 =? 0) with false. cbv iota.
  destruct (0.1 <? abs (dict_get system_state "temperature" 0)); eauto.
Qed.

Lemma calculate_reference self self' (system_state : SystemState) (tf : float) :
  reference_beta self = reference_beta self' ->
  calculate_effective_beta np_exp np_sin self system_state tf = calculate_effective_beta np_exp np_sin self' system_state tf.
Proof. intros H. unfold calculate_effective_beta. rewrite H. reflexivity. Qed.

(** X11.  Only the magnitude of the temperature matters, and a temperature
    whose magnitude does not exceed 0.1 (or is NaN) has no effect at all: the
    effective beta is the one of the state without the key. *)
Theorem temperature_effect self (d : SystemState) (t tf : float) :
  d "temperature" = None ->
  calculate_effective_beta np_exp np_sin self (with_temperature d (- t)) tf =
    calculate_effective_beta np_exp np_sin self (with_temperature d t) tf /\
  ((0.1 <? abs t) = false ->
   calculate_effective_beta np_exp np_sin self (with_temperature d t) tf = calculate_effective_beta np_exp np_sin self d tf).
Proof.
  intros Hd. unfold calculate_effective_beta, dict_get, with_temperature.
  cbn [String.eqb Ascii.eqb Bool.eqb]. rewrite Hd, abs_opp. split; [reflexivity|].
  intros H. rewrite H.
  change (abs 0) with 0. change (0.1 <? 0) with false. reflexivity.
Qed.

Lemma loop_except_soft (interval : float) st (e : Py.exc) :
  time_sleep interval = None -> Py.is_Exception e = true ->
  loop_except time_sleep interval st e = loop_log st [loop_error e].
Proof. intros Hs He. unfold loop_except. rewrite He, Hs. reflexivity. Qed.

Lemma iteration_provider_failure (interval : float) (e : Py.exc) st :
  time_sleep interval = None -> Py.is_Exception e = true ->
  monitor_iteration np_exp np_sin time_sleep interval (Raises e) st =
    loop_log st [loop_error e].
Proof. intros Hs He. apply loop_except_soft; assumption. Qed.

Lemma iteration_zero_filament (interval : float) (system_state : SystemState) st :
  time_sleep interval = None ->
  (dict_get system_state "filament_energy" 0.5 =? 0) = true ->
  monitor_iteration np_exp np_sin time_sleep interval (Value system_state) st =
    loop_log st [loop_error ZeroDivisionError].
Proof.
  intros Hs Hz. unfold monitor_iteration.
  rewrite (proj2 (calculate_zero_filament (loop_monitor st) system_state
                    (time_factor st)) Hz).
  apply loop_except_soft; [exact Hs | reflexivity].
Qed.

Lemma iteration_success (interval : float) (system_state : SystemState) (b : float) st :
  time_sleep interval = None ->
  calculate_effective_beta np_exp np_sin (loop_monitor st) system_state
    (time_factor st) = Value b ->
  faults_are_Exceptions (alert_callbacks (loop_monitor st)) ->
  loop_monitor (monitor_iteration np_exp np_sin time_sleep interval
                  (Value system_state) st) =
    mon (update_beta (loop_monitor st) b (loop_world st)) /\
  loop_world (monitor_iteration np_exp np_sin time_sleep interval
                (Value system_state) st) =
    world (update_beta (loop_monitor st) b (loop_world st)) /\
  time_factor (monitor_iteration np_exp np_sin time_sleep interval
                 (Value system_state) st) = time_factor st + interval /\
  escaped (monitor_iteration np_exp np_sin time_sleep interval
             (Value system_state) st) = escaped st.
Proof.
  intros Hs Hb Hf. unfold monitor_iteration. rewrite Hb. cbv zeta.
  destruct (update_beta_calls (loop_monitor st) b (loop_world st) Hf) as [P _].
  rewrite P, Hs. cbn [loop_monitor loop_world time_factor escaped].
  match goal with |- context [negb ?c] => destruct (negb c) end;
    repeat split; reflexivity.
Qed.

(** X12.  An iteration in which the provider fails with an [Exception], or
    returns a state whose filament energy is zero, leaves the monitor, the
    world and [time_factor] as they were and logs one error; [time_factor]
    advances only in an iteration that reaches [update_beta]. *)
Theorem failed_iteration_changes_nothing (interval : float)
    (provided : returns SystemState) st :
  time_sleep interval = None ->
  (forall e, provided = Raises e -> Py.is_Exception e = true ->
     monitor_iteration np_exp np_sin time_sleep interval provided st =
       loop_log st [loop_error e]) /\
  (forall system_state, provided = Value system_state ->
     (dict_get system_state "filament_energy" 0.5 =? 0) = true ->
     monitor_iteration np_exp np_sin time_sleep interval provided st =
       loop_log st [loop_error ZeroDivisionError]) /\
  (forall system_state b, provided = Value system_state ->
     calculate_effective_beta np_exp np_sin (loop_monitor st) system_state
       (time_factor st) = Value b ->
     faults_are_Exceptions (alert_callbacks (loop_monitor st)) ->
     let st' := monitor_iteration np_exp np_sin time_sleep interval provided st in
     loop_monitor st' = mon (update_beta (loop_monitor st) b (loop_world st)) /\
     loop_world st' = world (update_beta (loop_monitor st) b (loop_world st)) /\
     time_factor st' = time_factor st + interval /\
     escaped st' = escaped st).
Proof.
  intros Hs. split; [|split].
  - intros e -> He. apply iteration_provider_failure; assumption.
  - intros system_state -> Hz. apply iteration_zero_filament; assumption.
  - intros system_state b -> Hb Hf st'. subst st'.
    apply iteration_success; assumption.
Qed.

Lemma sampled_betas_reference self self' (interval : float)
    (provided : list (returns SystemState)) (tf : float) :
  reference_beta self = reference_beta self' ->
  sampled_betas np_exp np_sin self interval provided tf =
  sampled_betas np_exp np_sin self' interval provided tf.
Proof.
  intros H. revert tf. induction provided as [|[system_state | e] rest IH]; intros tf.
  - reflexivity.
  - cbn [sampled_betas]. rewrite (calculate_reference self self' _ _ H).
    destruct (calculate_effective_beta np_exp np_sin self' system_state tf);
      rewrite IH; reflexivity.
  - cbn [sampled_betas]. apply IH.
Qed.

Lemma loop_runs_on (interval : float) (provided : list (returns SystemState)) st :
  time_sleep interval = None ->
  providers_fail_softly provided ->
  faults_are_Exceptions (alert_callbacks (loop_monitor st)) ->
  monitor_active (loop_monitor st) = true ->
  escaped st = None ->
  let betas := sampled_betas np_exp np_sin (loop_monitor st) interval provided
                 (time_factor st) in
  let st' := monitor_loop np_exp np_sin time_sleep interval provided st in
  escaped st' = None /\
  loop_monitor st' = monitor_after (loop_monitor st) (loop_world st) betas /\
  loop_world st' = world_after_feed (loop_monitor st) (loop_world st) betas.
Proof.
  intros Hs Hp. revert st. induction Hp as [|p rest Hp _ IH]; intros st Hf Ha He.
  - cbn. auto.
  - cbv zeta. cbn [monitor_loop sampled_betas]. rewrite Ha.
    destruct p as [system_state | e].
    + destruct (calculate_effective_beta np_exp np_sin (loop_monitor st) system_state
                  (time_factor st)) as [b | e] eqn:C.
      * destruct (iteration_success interval system_state b st Hs C Hf)
          as (Hm & Hw & Ht & Hesc).
        rewrite Hesc, He.
        destruct (IH (monitor_iteration np_exp np_sin time_sleep interval
                        (Value system_state) st)) as (I1 & I2 & I3).
        { rewrite Hm, update_beta_callbacks. exact Hf. }
        { rewrite Hm, update_beta_mon. exact Ha. }
        { rewrite Hesc. exact He. }
        rewrite I1, I2, I3, Hm, Hw, Ht, monitor_after_cons, world_after_feed_cons.
        rewrite (sampled_betas_reference (mon (update_beta (loop_monitor st) b (loop_world st)))
                   (loop_monitor st)) by (rewrite update_beta_mon; reflexivity).
        auto.
      * pose proof (calculate_raises _ _ _ _ C) as ->.
        rewrite (iteration_zero_filament interval system_state st Hs
                   (proj1 (calculate_zero_filament _ _ _) C)).
        cbn [loop_log escaped]. rewrite He.
        apply (IH (loop_log st [loop_error ZeroDivisionError])); assumption.
    + rewrite (iteration_provider_failure interval e st Hs Hp).
      cbn [loop_log escaped]. rewrite He.
      apply (IH (loop_log st [loop_error e])); assumption.
Qed.

(** X13.  On an active monitor, with a [time.sleep] that accepts the
    interval, a provider that fails only with [Exception]s and callbacks that
    fail only with [Exception]s, the loop never ends on an exception, and
    what it does to the monitor and the world is what feeding the effective
    betas of the successful iterations to [update_beta] does: failed
    iterations leave no trace in them. *)
Theorem loop_feeds_sampled_betas self w (interval : float)
    (provided : list (returns SystemState)) :
  time_sleep interval = None ->
  providers_fail_softly provided ->
  faults_are_Exceptions (alert_callbacks self) ->
  monitor_active self = true ->
  let betas := sampled_betas np_exp np_sin self interval provided 0 in
  let st := monitor_loop np_exp np_sin time_sleep interval provided (loop_start self w) in
  escaped st = None /\
  loop_monitor st = monitor_after self w betas /\
  loop_world st = world_after_feed self w betas /\
  (List.length (beta_history self) <= 1000 ->
   beta_history (loop_monitor st) = Py.slice_last 1000 (beta_history self ++ betas))%nat.
Proof.
  intros Hs Hp Hf Ha betas st.
  destruct (loop_runs_on interval provided (loop_start self w) Hs Hp Hf Ha eq_refl)
    as (E & Mn & Wd).
  split; [exact E|]. split; [exact Mn|]. split; [exact Wd|].
  intros Hl. subst st. rewrite Mn. apply feed_history, Hl.
Qed.

(** X14.  When [time.sleep] rejects the interval (a negative one, for
    instance), the loop ends on an exception in its first iteration, whatever
    the provider returns: no second iteration takes place. *)
Theorem rejected_interval_ends_loop (interval : float) (e' : Py.exc)
    (p : returns SystemState) (rest : list (returns SystemState)) st :
  time_sleep interval = Some e' ->
  monitor_active (loop_monitor st) = true ->
  escaped (monitor_iteration np_exp np_sin time_sleep interval p st) <> None /\
  monitor_loop np_exp np_sin time_sleep interval (p :: rest) st =
    monitor_iteration np_exp np_sin time_sleep interval p st.
Proof.
  intros Hs Ha.
  assert (X : forall (s : LoopState W) e, escaped (loop_except time_sleep interval s e) <> None).
  { intros s e. unfold loop_except. rewrite Hs.
    destruct (Py.is_Exception e); discriminate. }
  assert (E : escaped (monitor_iteration np_exp np_sin time_sleep interval p st) <> None).
  { unfold monitor_iteration. destruct p as [system_state | e]; [|apply X].
    destruct (calculate_effective_beta np_exp np_sin (loop_monitor st) system_state
                (time_factor st)) as [b | e]; [|apply X].
    cbv zeta. destruct (propagated (update_beta (loop_monitor st) b (loop_world st)));
      [apply X|]. rewrite Hs. apply X. }
  split; [exact E|]. cbn [monitor_loop]. rewrite Ha.
  destruct (escaped (monitor_iteration np_exp np_sin time_sleep interval p st));
    [reflexivity | congruence].
Qed.

End LoopFacts.

(** * The window of [visualize_beta_history] *)

Lemma displayed_positive {W : Type} (self : BetaMonitor W) (window_size : Z) :
  (0 < window_size)%Z ->
  displayed_history self window_size =
    Py.slice_last (Z.to_nat window_size) (beta_history self).
Proof.
  intros H. unfold displayed_history, slice_from.
  destruct (Z.ltb_spec window_size (Z.of_nat (List.length (beta_history self)))).
  - destruct (Z.ltb_spec (- window_size) 0); [|lia].
    rewrite Z.opp_involutive. reflexivity.
  - rewrite slice_last_short by lia. reflexivity.
Qed.

(** X15.  [visualize_beta_history] plots the last [window_size] samples, all
    of them when there are fewer; a window of 0 selects the whole history and
    a negative window drops that many of the oldest samples instead.  For a
    window that is not negative, the point it highlights is the most recent
    sample, and looking it up raises [IndexError] exactly when no sample has
    been recorded. *)
Theorem displayed_window {W : Type} (self : BetaMonitor W) (window_size : Z) :
  ((0 < window_size)%Z ->
   displayed_history self window_size =
     Py.slice_last (Z.to_nat window_size) (beta_history self) /\
   List.length (displayed_history self window_size) =
     Nat.min (Z.to_nat window_size) (List.length (beta_history self))) /\
  (window_size = 0%Z -> displayed_history self window_size = beta_history self) /\
  ((window_size < 0)%Z ->
   displayed_history self window_size =
     skipn (Z.to_nat (- window_size)) (beta_history self)) /\
  ((0 <= window_size)%Z ->
   (highlighted_point self window_size = Raises IndexError <->
    beta_history self = []) /\
   (forall earlier v, beta_history self = earlier ++ [v] ->
      exists i, highlighted_point self window_size = Value (i, v))).
Proof.
  split; [|split; [|split]].
  - intros H. rewrite displayed_positive by exact H.
    split; [reflexivity | apply slice_last_length].
  - intros ->. unfold displayed_history, slice_from. cbn.
    destruct (Z.ltb_spec 0 (Z.of_nat (List.length (beta_history self)))); reflexivity.
  - intros H. unfold displayed_history, slice_from.
    destruct (Z.ltb_spec window_size (Z.of_nat (List.length (beta_history self)))); [|lia].
    destruct (Z.ltb_spec (- window_size) 0); [lia | reflexivity].
  - intros H.
    assert (D : displayed_history self window_size = beta_history self \/
                exists n, displayed_history self window_size =
                          Py.slice_last (S n) (beta_history self)).
    { destruct (Z.eq_dec window_size 0) as [-> | N].
      - left. unfold displayed_history, slice_from. cbn.
        destruct (Z.ltb_spec 0 (Z.of_nat (List.length (beta_history self)))); reflexivity.
      - right. exists (Nat.pred (Z.to_nat window_size)).
        rewrite displayed_positive by lia. f_equal. lia. }
    unfold highlighted_point. split.
    + split.
      * intros R. destruct (displayed_history self window_size) as [|a l] eqn:E;
          [|discriminate R].
        destruct D as [D | [n D]]; [congruence|].
        apply (f_equal (@List.length float)) in D.
        rewrite slice_last_length in D. cbn in D.
        destruct (beta_history self); [reflexivity | cbn in D; lia].
      * intros E. destruct D as [D | [n D]]; rewrite D, E; reflexivity.
    + intros earlier v E.
      assert (S' : exists l, displayed_history self window_size = l ++ [v]).
      { destruct D as [D | [n D]]; rewrite D, E; [eauto|].
        rewrite slice_last_snoc. eauto. }
      destruct S' as [l ->]. destruct (l ++ [v]) as [|a r] eqn:L.
      * destruct l; discriminate L.
      * rewrite <- (last_cons r a v), <- L, last_last. eauto.
Qed.

(** * The further properties on concrete inputs *)


Lemma status_color_follows_status_witness :
  get_status_color (mon (update_beta plain_monitor (-0.06) tt)) =
    get_status_color (mon (update_beta alerted_monitor (-0.07) tt)) /\
  alert_status (mon (update_beta plain_monitor (-0.06) tt)) =
    alert_status (mon (update_beta alerted_monitor (-0.07) tt)).
Proof.
  split; [reflexivity|].
  exact (proj1 (proj2 (status_color_follows_status alerted_monitor (-0.07) tt))
           plain_monitor (-0.06) tt eq_refl).
Defined.

Lemma lower_value_at_least_as_severe_witness :
  (-0.06 <=? 0.04) = true /\
  (severity_rank (alert_status (mon (update_beta plain_monitor 0.04 tt))) <=
   severity_rank (alert_status (mon (update_beta plain_monitor (-0.06) tt))))%nat.
Proof.
  split; [reflexivity|].
  exact (lower_value_at_least_as_severe plain_monitor (-0.06) 0.04 tt tt eq_refl).
Defined.

Lemma factor_is_capped_witness :
  is_nan nan = true /\
  snd (apply_corrective_action frozen_clock plain_monitor
         (fresh_world idle_corrector) "CRITICAL" nan) = 0.7.
Proof.
  split; [reflexivity|].
  exact (proj2 (proj2 (factor_is_capped frozen_clock plain_monitor
                         (fresh_world idle_corrector) "CRITICAL" nan)) eq_refl).
Defined.

Lemma handler_records_alerts_only_witness :
  is_alerting ("NORMAL", 0.31) = false /\
  exists w',
    alert_handler frozen_clock plain_monitor "NORMAL" 0.31 reset_world =
      Py.Returned w' /\
    corrector w' = corrector reset_world /\ clock_reads w' = clock_reads reset_world.
Proof.
  split; [reflexivity|].
  destruct (handler_records_alerts_only frozen_clock plain_monitor "NORMAL" 0.31
              reset_world) as (w' & R & N & _).
  exists w'. split; [exact R|]. exact (N eq_refl).
Defined.

Lemma monitored_system_callbacks :
  alert_callbacks (snd monitored_system) =
    [alert_handler frozen_clock (@BetaMonitor_default CorrectorWorld)].
Proof. reflexivity. Defined.

Lemma actions_follow_alerting_transitions_witness :
  alert_callbacks (snd monitored_system) =
    [alert_handler frozen_clock (@BetaMonitor_default CorrectorWorld)] /\
  map action_trigger
      (corrective_actions_history
         (corrector (world_after_feed (snd monitored_system)
                       (fresh_world (fst monitored_system))
                       [0.31; 0.04; 0.04; -0.06; -0.20; 0.31]))) =
    [("ALERT", 0.04); ("CRITICAL", -0.06); ("EMERGENCY", -0.20)].
Proof.
  split; [exact monitored_system_callbacks|].
  exact (actions_follow_alerting_transitions frozen_clock BetaMonitor_default
           (snd monitored_system) (fresh_world (fst monitored_system))
           [0.31; 0.04; 0.04; -0.06; -0.20; 0.31] monitored_system_callbacks).
Defined.

Lemma handled_factors_in_unit_interval_witness :
  alert_callbacks (snd monitored_system) =
    [alert_handler frozen_clock (@BetaMonitor_default CorrectorWorld)] /\
  (emergency_threshold (snd monitored_system) <=?
     reference_beta (@BetaMonitor_default CorrectorWorld)) = true /\
  (critical_threshold (snd monitored_system) <=?
     reference_beta (@BetaMonitor_default CorrectorWorld)) = true /\
  (alert_threshold (snd monitored_system) <=?
     reference_beta (@BetaMonitor_default CorrectorWorld)) = true /\
  Forall (fun a => in_unit_interval (correction_factor a) = true)
         (corrective_actions_history (corrector (fresh_world (fst monitored_system)))) /\
  Forall (fun a => in_unit_interval (correction_factor a) = true)
         (corrective_actions_history
            (corrector (world_after_feed (snd monitored_system)
                          (fresh_world (fst monitored_system))
                          [0.31; 0.04; -0.06; -0.20; 0.31]))).
Proof.
  split; [exact monitored_system_callbacks|].
  do 3 (split; [reflexivity|]). split; [constructor|].
  exact (handled_factors_in_unit_interval frozen_clock BetaMonitor_default
           (snd monitored_system) (fresh_world (fst monitored_system))
           [0.31; 0.04; -0.06; -0.20; 0.31] monitored_system_callbacks
           eq_refl eq_refl eq_refl (Forall_nil _)).
Defined.

Lemma adjustments_not_negative_witness :
  corrective_actions_history reset_corrector = [] ++ [reset_entry] /\
  (0 <=? correction_factor reset_entry) = true /\
  (0 <=? void_energy_boost (get_correction_parameters reset_corrector)) = true.
Proof.
  do 2 (split; [reflexivity|]).
  exact (proj1 (adjustments_not_negative reset_corrector [] reset_entry
                  eq_refl eq_refl)).
Defined.

Lemma effective_beta_raises_on_zero_filament_witness :
  (dict_get dead_state "filament_energy" 0.5 =? 0) = true /\
  calculate_effective_beta (W := unit) flat_exp flat_sin plain_monitor dead_state 0 =
    Raises ZeroDivisionError.
Proof.
  split; [reflexivity|].
  exact (proj2 (proj1 (effective_beta_raises_on_zero_filament flat_exp flat_sin
                         plain_monitor dead_state 0)) eq_refl).
Defined.

Lemma temperature_effect_witness :
  empty_state "temperature" = None /\
  (0.1 <? abs 0.05) = false /\
  calculate_effective_beta (W := unit) flat_exp flat_sin plain_monitor
    (with_temperature empty_state 0.05) 0 =
  calculate_effective_beta flat_exp flat_sin plain_monitor empty_state 0.
Proof.
  do 2 (split; [reflexivity|]).
  exact (proj2 (temperature_effect flat_exp flat_sin plain_monitor empty_state
                  0.05 0 eq_refl) eq_refl).
Defined.

Lemma failed_iteration_changes_nothing_witness :
  sleeps 1.0 = None /\
  (dict_get dead_state "filament_energy" 0.5 =? 0) = true /\
  monitor_iteration flat_exp flat_sin sleeps 1.0 (Value dead_state)
    (loop_start plain_monitor tt) =
  loop_log (loop_start plain_monitor tt) [loop_error ZeroDivisionError].
Proof.
  do 2 (split; [reflexivity|]).
  exact (proj1 (proj2 (failed_iteration_changes_nothing flat_exp flat_sin sleeps 1.0
                         (Value dead_state) (loop_start plain_monitor tt) eq_refl))
           dead_state eq_refl eq_refl).
Defined.

Lemma provider_outcomes_soft : providers_fail_softly provider_outcomes.
Proof. repeat constructor. Defined.

Lemma loop_feeds_sampled_betas_witness :
  strict_sleep 1.0 = None /\
  providers_fail_softly provider_outcomes /\
  faults_are_Exceptions (alert_callbacks active_monitor) /\
  monitor_active active_monitor = true /\
  escaped (monitor_loop flat_exp flat_sin strict_sleep 1.0 provider_outcomes
             (loop_start active_monitor tt)) = None /\
  beta_history
    (loop_monitor (monitor_loop flat_exp flat_sin strict_sleep 1.0 provider_outcomes
                     (loop_start active_monitor tt))) =
    sampled_betas flat_exp flat_sin active_monitor 1.0 provider_outcomes 0.
Proof.
  split; [reflexivity|]. split; [exact provider_outcomes_soft|].
  split; [constructor|]. split; [reflexivity|].
  destruct (loop_feeds_sampled_betas flat_exp flat_sin strict_sleep active_monitor tt
              1.0 provider_outcomes eq_refl provider_outcomes_soft (Forall_nil _)
              eq_refl)
    as (E & _ & _ & H).
  split; [exact E|]. exact (H (Nat.le_0_l 1000)).
Defined.

Lemma rejected_interval_ends_loop_witness :
  strict_sleep (-1.0) =
    Some {| Py.is_Exception := true;
            Py.exc_text := "sleep length must be non-negative" |} /\
  monitor_active (loop_monitor (loop_start active_monitor tt)) = true /\
  monitor_loop flat_exp flat_sin strict_sleep (-1.0) provider_outcomes
    (loop_start active_monitor tt) =
  monitor_iteration flat_exp flat_sin strict_sleep (-1.0) (Value empty_state)
    (loop_start active_monitor tt).
Proof.
  do 2 (split; [reflexivity|]).
  exact (proj2 (rejected_interval_ends_loop flat_exp flat_sin strict_sleep (-1.0) _
                  (Value empty_state) _ (loop_start active_monitor tt)
                  eq_refl eq_refl)).
Defined.

Lemma displayed_window_witness :
  (0 < 2)%Z /\
  displayed_history sampled_monitor 2 = [0.04; -0.06] /\
  (0 <= 100)%Z /\
  beta_history plain_monitor = [] /\
  highlighted_point plain_monitor 100 = Raises IndexError.
Proof.
  split; [reflexivity|].
  split; [exact (proj1 (proj1 (displayed_window sampled_monitor 2) eq_refl))|].
  split; [discriminate|]. split; [reflexivity|].
  assert (N : (0 <= 100)%Z) by discriminate.
  exact (proj2 (proj1 (proj2 (proj2 (proj2 (displayed_window plain_monitor 100))) N))
           eq_refl).
Defined.

Lemma misordered_thresholds_hide_statuses_witness :
  (critical_threshold misordered_monitor <=?
     emergency_threshold misordered_monitor) = true /\
  alert_status (mon (update_beta misordered_monitor (-0.10) tt)) <> "CRITICAL".
Proof.
  split; [reflexivity|].
  exact (proj1 (misordered_thresholds_hide_statuses misordered_monitor (-0.10) tt)
           eq_refl).
Defined.
